(** * PlantCV photosynthesis: [analyze_yii] and its histogram builder

    A shallow embedding of
    [plantcv/plantcv/photosynthesis/analyze_yii.py].

    Arrays are nested lists in the axis order of the source
    ([x], [y], [frame_label], [measurement]); numpy's [float64] is Rocq's
    primitive binary64 [float]; Python exceptions are the [Raise] branch of
    [result]; the process-wide [outputs] object is threaded explicitly.

    What the libraries do is modelled from their documented behaviour:
    - [np.histogram] by its bin semantics (half-open bins, the last one
      closed) over the edges [np.linspace] computes;
    - [DataArray.sel] by position of the label in the coordinate (the first
      one; frame labels are distinct in the stacks PlantCV reads), a missing
      label being a [KeyError];
    - [groupby('measurement')] followed by a reduction over [x] and [y], or
      by [map], one measurement at a time, in the order of the measurement
      axis; it raises [ValueError] on an empty axis;
    - [nanmedian], [nanmax] and [scipy.stats.mode] with [nan_policy="omit"]
      on the non-NaN entries, NaN when there is none;
    - the histogram table keeps its two columns apart (the measurement label
      is not the literal column name 'Plant Pixels'). *)

From Stdlib Require Import Ascii String DecimalString.
From Stdlib Require Import List ZArith Bool Lia.
From Stdlib Require Import Floats.
Import ListNotations.

Set Implicit Arguments.
Set Warnings "-inexact-float".

Local Open Scope list_scope.

(** ** Floating point *)

Module F64.

(** [x > 0] on float64: false on NaN, on both zeros and on negatives. *)
Definition gt0 (x : float) : bool := PrimFloat.ltb 0%float x.

Definition isnan (x : float) : bool := PrimFloat.is_nan x.

(** [x == 0] on float64 (true on [+0.] and on [-0.]). *)
Definition eq0 (x : float) : bool := PrimFloat.eqb x 0%float.

(** Conversion of a Python/numpy integer to float64 (round to nearest
    even), as [astype('float')] and [arange(...)] do. *)
Definition of_Z (z : Z) : float :=
  SF2Prim (binary_normalize prec emax z 0 false).

Definition of_nat (n : nat) : float := of_Z (Z.of_nat n).

(** [np.rint]: nearest integer, ties to even.  Integral values, NaN and
    the infinities are returned as they are. *)
Definition rint (x : float) : float :=
  match Prim2SF x with
  | S754_finite s m e =>
      if (0 <=? e)%Z then x
      else
        let d := Z.pow 2 (- e) in
        let q := Z.div (Zpos m) d in
        let r := Z.modulo (Zpos m) d in
        let n := match Z.compare (2 * r) d with
                 | Lt => q
                 | Gt => (q + 1)%Z
                 | Eq => if Z.even q then q else (q + 1)%Z
                 end in
        if (n =? 0)%Z then (if s then neg_zero else zero)
        else of_Z (if s then (- n)%Z else n)
  | _ => x
  end.

(** [np.around(x, decimals=2)]: numpy multiplies by [10**2], rounds with
    [rint] and divides again. *)
Definition around2 (x : float) : float :=
  PrimFloat.div (rint (PrimFloat.mul x 100%float)) 100%float.

End F64.

(** ** numpy helpers used by the histogram builder *)

Module Np.

(** [np.linspace(start, stop, num)] with [endpoint=True]: numpy computes
    [step = (stop - start) / (num - 1)], then [arange(num) * step + start],
    and finally overwrites the last entry with [stop].  (numpy's other path,
    for a step that rounds to zero, does not arise over the range (0, 1).) *)
Definition linspace (start stop : float) (num : nat) : list float :=
  let step := PrimFloat.div (PrimFloat.sub stop start) (F64.of_nat (num - 1)) in
  map (fun i =>
         if Nat.eqb (S i) num && Nat.ltb 1 num then stop
         else PrimFloat.add (PrimFloat.mul (F64.of_nat i) step) start)
      (seq 0 num).

(** Membership of [a] in bin [i] of [bins] equal-width bins: every bin is
    half-open [[lo, hi)], except the last one which is closed. *)
Definition in_bin (edges : list float) (bins i : nat) (a : float) : bool :=
  let lo := nth i edges nan in
  let hi := nth (S i) edges nan in
  PrimFloat.leb lo a
  && (if Nat.eqb (S i) bins then PrimFloat.leb a hi else PrimFloat.ltb a hi).

(** [np.histogram(a, bins, range=(lo, hi))]: the counts per bin and the
    [bins + 1] bin edges.  Values outside the range (and NaN) fall in no
    bin. *)
Definition histogram (a : list float) (bins : nat) (lo hi : float)
  : list nat * list float :=
  let edges := linspace lo hi (S bins) in
  (map (fun i => length (filter (in_bin edges bins i) a)) (seq 0 bins), edges).

(** [np.argmax] of a 1-D array of counts: the index of the first
    occurrence of the maximum. *)
Fixpoint argmax_from (best_i best : nat) (i : nat) (l : list nat) : nat :=
  match l with
  | [] => best_i
  | c :: l' =>
      if Nat.ltb best c then argmax_from i c (S i) l'
      else argmax_from best_i best (S i) l'
  end.

Definition argmax (l : list nat) : nat :=
  match l with
  | [] => 0
  | c :: l' => argmax_from 0 c 1 l'
  end.

End Np.

(** ** The histogram builder, [_create_histogram] *)

(** [pd.DataFrame({'Plant Pixels': yii_hist, mlabel: yii_bins[:-1]})]: two
    columns, the second one named after the measurement label. *)
Record DataFrame := {
  Plant_Pixels : list nat;
  edge_column : string;
  bin_edge : list float
}.

(** The plotnine figure: the data it plots, its title and axis label, and
    the value shown in the "Peak Bin Value" annotation. *)
Record ggplot := {
  fig_data : DataFrame;
  fig_title : string;
  fig_xlab : string;
  fig_peak_bin : float
}.

Definition _create_histogram (yii_img : list (list float)) (mlabel : string)
  : DataFrame * ggplot :=
  let '(yii_hist, yii_bins) :=
    Np.histogram (filter F64.gt0 (concat yii_img)) 100 0%float 1%float in
  let max_bin := nth (Np.argmax yii_hist) yii_bins nan in
  let hist_df := {| Plant_Pixels := yii_hist;
                    edge_column := mlabel;
                    bin_edge := removelast yii_bins |} in
  let hist_fig := {| fig_data := hist_df;
                     fig_title := ("measurement: " ++ mlabel)%string;
                     fig_xlab := "photosynthetic efficiency (yii)"%string;
                     fig_peak_bin := max_bin |} in
  (hist_df, hist_fig).

(** ** Python exceptions and the process-wide [outputs] object *)

Inductive exn :=
| FatalError (msg : string)
| KeyError (key : string)
| ValueError (msg : string)
| UnboundLocalError (name : string).

Inductive result (A : Type) :=
| Ok (a : A)
| Raise (e : exn).

Arguments Ok {A} a.
Arguments Raise {A} e.

Inductive py_type := py_float | py_list.

Inductive obs_value :=
| VFloat (f : float)
| VList (counts : list nat).

Inductive obs_label :=
| LStr (s : string)
| LList (edges : list float).

Record observation := {
  obs_sample : string;
  obs_variable : string;
  obs_trait : string;
  obs_method : string;
  obs_scale : string;
  obs_datatype : py_type;
  obs_value_of : obs_value;
  obs_label_of : obs_label
}.

(** The efficiency map: a DataArray over ([x], [y], [measurement]) with the
    measurement coordinate and the names of the coordinates it carries. *)
Record YiiArray := {
  yii_values : list (list (list float));
  yii_measurement : list string;
  yii_coords : list string
}.

Record Outputs := {
  observations : list observation;
  images : list YiiArray
}.

(** A computation that reads and updates [outputs] and may raise.  What was
    recorded before an exception stays recorded, as in Python. *)
Definition M (A : Type) : Type := Outputs -> result A * Outputs.

Definition ret {A} (a : A) : M A := fun o => (Ok a, o).

Definition raise {A} (e : exn) : M A := fun o => (Raise e, o).

Definition bind {A B} (m : M A) (k : A -> M B) : M B :=
  fun o => match m o with
           | (Ok a, o') => k a o'
           | (Raise e, o') => (Raise e, o')
           end.

Declare Scope py_scope.
Delimit Scope py_scope with py.
Notation "x <- m ;; k" := (bind m (fun x => k))
  (at level 61, m at next level, right associativity) : py_scope.
Notation "m ;;; k" := (bind m (fun _ => k))
  (at level 61, right associativity) : py_scope.

(** Modelled from the spec: [fatal_error] of [plantcv.plantcv] is not among
    the sources; the spec makes each precondition failure "immediately fatal
    (abort the whole call, no partial observations recorded)" with a
    user-visible message. *)
Definition fatal_error {A} (msg : string) : M A := raise (FatalError msg).

(** Modelled from the spec: [outputs.add_observation] is not among the
    sources; the spec has every observation "created once, appended to a
    process-wide observation store, never mutated". *)
Definition add_observation (sample variable trait method scale : string)
    (datatype : py_type) (value : obs_value) (label : obs_label) : M unit :=
  fun o =>
    (Ok tt,
     {| observations :=
          observations o ++
            [{| obs_sample := sample; obs_variable := variable;
                obs_trait := trait; obs_method := method; obs_scale := scale;
                obs_datatype := datatype; obs_value_of := value;
                obs_label_of := label |}];
        images := images o |}).

(** [outputs.images.append(yii)] *)
Definition images_append (yii : YiiArray) : M unit :=
  fun o => (Ok tt, {| observations := observations o;
                      images := images o ++ [yii] |}).

(** ** Strings *)

Module Str.

(** [str.lower] on ASCII text. *)
Definition lower_ascii (c : ascii) : ascii :=
  let n := nat_of_ascii c in
  if Nat.leb 65 n && Nat.leb n 90 then ascii_of_nat (n + 32) else c.

Fixpoint lower (s : string) : string :=
  match s with
  | EmptyString => EmptyString
  | String c s' => String (lower_ascii c) (lower s')
  end.

(** [sub in s] *)
Fixpoint contains (sub s : string) : bool :=
  String.prefix sub s ||
  match s with
  | EmptyString => false
  | String _ s' => contains sub s'
  end.

(** [str(n)] for a non-negative int. *)
Definition of_nat (n : nat) : string :=
  DecimalString.NilEmpty.string_of_uint (Nat.to_uint n).

(** [str(t)] for a pair of ints, as an f-string prints [shape[:2]]. *)
Definition of_shape (sh : nat * nat) : string :=
  ("(" ++ of_nat (fst sh) ++ ", " ++ of_nat (snd sh) ++ ")")%string.

Fixpoint index (k : string) (l : list string) : option nat :=
  match l with
  | [] => None
  | x :: l' => if String.eqb x k then Some 0
               else option_map S (index k l')
  end.

End Str.

(** ** Arrays *)

Definition map2 {A B C} (f : A -> B -> C) (l1 : list A) (l2 : list B) : list C :=
  map (fun p => f (fst p) (snd p)) (combine l1 l2).

(** The first two entries of [shape]. *)
Definition shape2 {A} (a : list (list A)) : nat * nat :=
  (length a, length (hd [] a)).

Definition shape_eqb (s t : nat * nat) : bool :=
  Nat.eqb (fst s) (fst t) && Nat.eqb (snd s) (snd t).

(** The mask: a 2-D numpy array with its dtype. *)
Record ndarray := {
  dtype : string;
  nd_values : list (list Z)
}.

(** [np.unique(mask)]: the distinct values (only their number is used). *)
Definition unique (mask : ndarray) : list Z :=
  nodup Z.eq_dec (concat (nd_values mask)).

(** The fluorescence stack: an xarray DataArray over
    ([x], [y], [frame_label], [measurement]). *)
Record DataArray (pixel : Type) := {
  da_name : string;
  da_values : list (list (list (list pixel)));
  frame_label : list string;
  measurement : list string;
  da_coords : list string
}.

(** ** Statistics over one measurement *)

Module Stats.

Fixpoint insert (x : float) (l : list float) : list float :=
  match l with
  | [] => [x]
  | y :: l' => if PrimFloat.leb x y then x :: l else y :: insert x l'
  end.

Definition sort (l : list float) : list float := fold_right insert [] l.

Definition dropna (l : list float) : list float :=
  filter (fun v => negb (F64.isnan v)) l.

(** [nanmedian]: the middle value of the sorted non-NaN entries, or the
    mean of the two middle ones; NaN when there is none. *)
Definition nanmedian (l : list float) : float :=
  let s := sort (dropna l) in
  let n := length s in
  if Nat.eqb n 0 then nan
  else if Nat.odd n then nth (n / 2) s nan
  else PrimFloat.div (PrimFloat.add (nth (n / 2 - 1) s nan) (nth (n / 2) s nan)) 2%float.

(** [np.fmax]: the larger operand, a NaN operand being ignored. *)
Definition fmax (a b : float) : float :=
  if F64.isnan a then b
  else if F64.isnan b then a
  else if PrimFloat.ltb a b then b else a.

(** [nanmax]: NaN when every entry is NaN. *)
Definition nanmax (l : list float) : float := fold_left fmax l nan.

(** [np.unique(a, return_counts=True)] on a sorted array. *)
Fixpoint unique_counts (s : list float) : list (float * nat) :=
  match s with
  | [] => []
  | x :: s' =>
      match unique_counts s' with
      | (y, c) :: r => if PrimFloat.eqb x y then (x, S c) :: r
                       else (x, 1) :: (y, c) :: r
      | [] => [(x, 1)]
      end
  end.

(** [scipy.stats.mode(a, nan_policy="omit", axis=None).mode]: the
    smallest of the most frequent non-NaN values, NaN when there is
    none. *)
Definition mode (l : list float) : float :=
  let vc := unique_counts (sort (dropna l)) in
  match vc with
  | [] => nan
  | _ => fst (nth (Np.argmax (map snd vc)) vc (nan, 0))
  end.

End Stats.

(** ** The analyzer, [analyze_yii] *)

Definition method_name : string := "plantcv.plantcv.photosynthesis.analyze_yii".

Section AnalyzeYii.

Local Open Scope py_scope.

(** The stack's element type and numpy's cast of it to float64. *)
Variable pixel : Type.
Variable astype_float : pixel -> float.

(** [ps_da.astype('float').where(mask > 0, other=np.nan)] with the mask
    broadcast over the frame and measurement axes by
    [mask[..., None, None]]. *)
Definition where_mask (ps : list (list (list (list pixel))))
    (mask : list (list Z)) : list (list (list (list float))) :=
  map2 (fun row mrow =>
          map2 (fun px mv =>
                  map (map (fun v => if (0 <? mv)%Z then astype_float v
                                     else nan)) px)
               row mrow)
       ps mask.

(** [da.sel(frame_label=k)]: the frame axis is consumed; a label that is
    not in the coordinate is a [KeyError]. *)
Definition sel_frame_label (labels : list string) (k : string)
    (a : list (list (list (list float)))) : M (list (list (list float))) :=
  match Str.index k labels with
  | Some j => ret (map (map (fun frames => nth j frames [])) a)
  | None => raise (KeyError k)
  end.

Definition elementwise (op : float -> float -> float)
    (a b : list (list (list float))) : list (list (list float)) :=
  map2 (map2 (map2 op)) a b.

(** [(da.sel(frame_label=hi) - da.sel(frame_label=lo)) / da.sel(frame_label=hi)] *)
Definition _calc_yii (labels : list string) (hi lo : string)
    (da : list (list (list (list float)))) : M (list (list (list float))) :=
  a <- sel_frame_label labels hi da ;;
  b <- sel_frame_label labels lo da ;;
  c <- sel_frame_label labels hi da ;;
  ret (elementwise PrimFloat.div (elementwise PrimFloat.sub a b) c).

(** xarray refuses to group over an empty coordinate. *)
Definition groupby_measurement (n : nat) : M unit :=
  if Nat.eqb n 0
  then raise (ValueError
    "Failed to group data. Are you grouping by a variable that is all NaN?")
  else ret tt.

(** The group of measurement [i], its measurement axis kept with length 1
    ([squeeze=False]). *)
Definition group (i : nat) (a : list (list (list (list float))))
  : list (list (list (list float))) :=
  map (map (map (fun ms => firstn 1 (skipn i ms)))) a.

Fixpoint map_groups (f : list (list (list (list float))) -> M (list (list (list float))))
    (a : list (list (list (list float)))) (idx : list nat)
  : M (list (list (list (list float)))) :=
  match idx with
  | [] => ret []
  | i :: idx' =>
      r <- f (group i a) ;;
      rs <- map_groups f a idx' ;;
      ret (r :: rs)
  end.

(** Concatenation of the groups' results along the measurement axis. *)
Definition concat_measurement (parts : list (list (list (list float))))
  : list (list (list float)) :=
  match parts with
  | [] => []
  | p :: ps => fold_left (map2 (map2 (@app float))) ps p
  end.

(** [yii0.groupby('measurement', squeeze=False).map(f)] *)
Definition groupby_map (n : nat)
    (f : list (list (list (list float))) -> M (list (list (list float))))
    (a : list (list (list (list float)))) : M (list (list (list float))) :=
  groupby_measurement n ;;;
  parts <- map_groups f a (seq 0 n) ;;
  ret (concat_measurement parts).

(** [yii.where(yii > 0)] *)
Definition where_positive (yii : list (list (list float)))
  : list (list (list float)) :=
  map (map (map (fun v => if F64.gt0 v then v else nan))) yii.

(** [yii.isel({'measurement': i}).values]: the ([x], [y]) plane. *)
Definition isel_measurement (i : nat) (yii : list (list (list float)))
  : list (list float) :=
  map (map (fun ms => nth i ms nan)) yii.

(** A reduction over [x] and [y], one value per measurement. *)
Definition reduce_xy (stat : list float -> float) (n : nat)
    (a : list (list (list float))) : list float :=
  map (fun i => stat (concat (isel_measurement i a))) (seq 0 n).

(** Lines 68-69: the label of measurement [i] is the caller's label when
    labels are given, else the stack's own coordinate value. *)
Definition resolve_label (measurement_labels : option (list string))
    (i : nat) (mlabel : string) : string :=
  match measurement_labels with
  | Some ls => nth i ls mlabel
  | None => mlabel
  end.

(** The body of the [for i, mlabel in enumerate(...)] loop. *)
Definition loop_body (yii : list (list (list float)))
    (yii_median yii_mode yii_max : list float)
    (measurement_labels : option (list string)) (label : string)
    (i : nat) (mlabel : string) : M ggplot :=
  let mlabel := resolve_label measurement_labels i mlabel in
  let '(hist_df, hist_fig) := _create_histogram (isel_measurement i yii) mlabel in
  add_observation label ("yii_median_" ++ mlabel) "median yii value"
    method_name "none" py_float (VFloat (nth i yii_median nan)) (LStr "none") ;;;
  add_observation label ("yii_mode_" ++ mlabel) "mode yii value"
    method_name "none" py_float (VFloat (nth i yii_mode nan)) (LStr "none") ;;;
  add_observation label ("yii_max_" ++ mlabel) "peak yii value"
    method_name "none" py_float (VFloat (nth i yii_max nan)) (LStr "none") ;;;
  add_observation label ("yii_hist_" ++ mlabel) "yii frequencies"
    method_name "none" py_list (VList (Plant_Pixels hist_df))
    (LList (map F64.around2 (bin_edge hist_df))) ;;;
  ret hist_fig.

(** The loop; [hist_fig] is the local variable of that name, unbound
    ([None]) until the first iteration assigns it. *)
Fixpoint loop (body : nat -> string -> M ggplot)
    (items : list (nat * string)) (hist_fig : option ggplot)
  : M (option ggplot) :=
  match items with
  | [] => ret hist_fig
  | (i, mlabel) :: items' =>
      fig <- body i mlabel ;;
      loop body items' (Some fig)
  end.

Definition enumerate {A} (l : list A) : list (nat * A) :=
  combine (seq 0 (length l)) l.

(** Lines 37-44: the three precondition checks, in the order of the
    source. *)
Definition validate (ps_da : DataArray pixel) (mask : ndarray)
    (measurement_labels : option (list string)) : M unit :=
  (if negb (shape_eqb (shape2 (nd_values mask)) (shape2 (da_values ps_da)))
   then fatal_error ("Mask needs to have shape "
                     ++ Str.of_shape (shape2 (da_values ps_da)))
   else ret tt) ;;;
  (if Nat.ltb 2 (length (unique mask)) || negb (String.eqb (dtype mask) "uint8")
   then fatal_error "Mask must have dtype uint8 and be binary"
   else ret tt) ;;;
  match measurement_labels with
  | Some ls =>
      if negb (Nat.eqb (length ls) (length (measurement ps_da)))
      then fatal_error
        "measurement_labels must be the same length as the number of measurements in the DataArray"
      else ret tt
  | None => ret tt
  end.

(** Lines 46-57: the variant dispatch.  The local variable [yii] is
    assigned in the two recognised branches only; [None] is the variable
    left unbound. *)
Definition efficiency (ps_da : DataArray pixel) (mask : ndarray)
  : M (option (list (list (list float)))) :=
  let var := Str.lower (da_name ps_da) in
  if String.eqb var "darkadapted" then
    let yii0 := where_mask (da_values ps_da) (nd_values mask) in
    yii <- _calc_yii (frame_label ps_da) "Fm" "F0" yii0 ;;
    ret (Some yii)
  else if String.eqb var "lightadapted" then
    let yii0 := where_mask (da_values ps_da) (nd_values mask) in
    yii <- groupby_map (length (measurement ps_da))
             (_calc_yii (frame_label ps_da) "Fmp" "Fp") yii0 ;;
    ret (Some yii)
  else ret None.

(** Reading a local variable: [UnboundLocalError] when it was never
    assigned. *)
Definition local {A} (name : string) (v : option A) : M A :=
  match v with
  | Some a => ret a
  | None => raise (UnboundLocalError name)
  end.

(** Lines 95-97: the coordinates whose name contains ["frame"] are
    dropped. *)
Definition drop_frame_coords (coords : list string) : list string :=
  let res := filter (Str.contains "frame") coords in
  filter (fun c => negb (existsb (String.eqb c) res)) coords.

(** The two calls of [_debug] (lines 92 and 105) hand a figure to the
    external debug collaborator; they return nothing and nothing is read
    back from them, so they leave no trace here. *)
Definition analyze_yii (ps_da : DataArray pixel) (mask : ndarray)
    (measurement_labels : option (list string)) (label : string)
  : M (YiiArray * ggplot) :=
  validate ps_da mask measurement_labels ;;;
  yii_bound <- efficiency ps_da mask ;;
  let n := length (measurement ps_da) in
  yii <- local "yii" yii_bound ;;
  groupby_measurement n ;;;
  let yii_median := reduce_xy Stats.nanmedian n (where_positive yii) in
  let yii_max := reduce_xy Stats.nanmax n (where_positive yii) in
  let yii_mode := reduce_xy Stats.mode n (where_positive yii) in
  hist_fig <- loop (loop_body yii yii_median yii_mode yii_max
                              measurement_labels label)
                   (enumerate (measurement ps_da)) None ;;
  let yii_da := {| yii_values := yii;
                   yii_measurement := measurement ps_da;
                   yii_coords := drop_frame_coords (da_coords ps_da) |} in
  images_append yii_da ;;;
  fig <- local "hist_fig" hist_fig ;;
  ret (yii_da, fig).

End AnalyzeYii.

(** ** Definitions used to state the properties *)

(** Reading one entry of a nested array; [None] outside its extent. *)
Definition get2 {A} (a : list (list A)) (x y : nat) : option A :=
  match nth_error a x with
  | Some row => nth_error row y
  | None => None
  end.

Definition get3 {A} (a : list (list (list A))) (x y m : nat) : option A :=
  match get2 a x y with
  | Some ms => nth_error ms m
  | None => None
  end.

Definition get4 {A} (a : list (list (list (list A)))) (x y f m : nat) : option A :=
  match get3 a x y f with
  | Some ms => nth_error ms m
  | None => None
  end.

(** An order-preserving key of the non-NaN binary64 values: sign class,
    then exponent, then mantissa. *)
Definition key (x : spec_float) : Z * Z * Z :=
  match x with
  | S754_nan => (0, 0, 0)
  | S754_zero _ => (0, 0, 0)
  | S754_infinity s => (if s then -2 else 2, 0, 0)
  | S754_finite s m e => if s then (-1, - e, - Zpos m) else (1, e, Zpos m)
  end%Z.

Definition lex_le (a b : Z * Z * Z) : Prop :=
  let '(a1, a2, a3) := a in
  let '(b1, b2, b3) := b in
  (a1 < b1 \/ (a1 = b1 /\ (a2 < b2 \/ (a2 = b2 /\ a3 <= b3))))%Z.

Definition indicator (b : bool) : nat := if b then 1 else 0.

(** The number of bins a value falls in, read off consecutive edges. *)
Fixpoint count_adj (es : list float) (a : float) : nat :=
  match es with
  | lo :: ((hi :: rest) as es') =>
      indicator (PrimFloat.leb lo a
                 && match rest with
                    | [] => PrimFloat.leb a hi
                    | _ => PrimFloat.ltb a hi
                    end)
      + count_adj es' a
  | _ => 0
  end.

Fixpoint sorted (es : list float) : bool :=
  match es with
  | lo :: ((hi :: _) as es') => PrimFloat.leb lo hi && sorted es'
  | _ => true
  end.

(** The values the histogram counts: positive and at most 1. *)
Definition counted (v : float) : bool := F64.gt0 v && PrimFloat.leb v 1%float.

(** The closed domain [[0, 1]] of the bins. *)
Definition in_domain (v : float) : bool :=
  PrimFloat.leb 0%float v && PrimFloat.leb v 1%float.

(** [k] is the first position of the maximum of [l]. *)
Definition first_max (l : list nat) (k : nat) : Prop :=
  k < length l
  /\ (forall j, j < length l -> nth j l 0 <= nth k l 0)
  /\ (forall j, j < k -> nth j l 0 < nth k l 0).

(** The bins with a non-zero count, as (bin index, count). *)
Definition nonzero_bins (l : list nat) : list (nat * nat) :=
  filter (fun p => negb (Nat.eqb (snd p) 0)) (combine (seq 0 (length l)) l).

(** The four observations one loop iteration records, in order. *)
Definition observe (yii : list (list (list float)))
    (yii_median yii_mode yii_max : list float)
    (measurement_labels : option (list string)) (label : string)
    (item : nat * string) : list observation :=
  let i := fst item in
  let mlabel := resolve_label measurement_labels i (snd item) in
  let hist_df := fst (_create_histogram (isel_measurement i yii) mlabel) in
  [ {| obs_sample := label; obs_variable := ("yii_median_" ++ mlabel)%string;
       obs_trait := "median yii value"; obs_method := method_name;
       obs_scale := "none"; obs_datatype := py_float;
       obs_value_of := VFloat (nth i yii_median nan);
       obs_label_of := LStr "none" |};
    {| obs_sample := label; obs_variable := ("yii_mode_" ++ mlabel)%string;
       obs_trait := "mode yii value"; obs_method := method_name;
       obs_scale := "none"; obs_datatype := py_float;
       obs_value_of := VFloat (nth i yii_mode nan);
       obs_label_of := LStr "none" |};
    {| obs_sample := label; obs_variable := ("yii_max_" ++ mlabel)%string;
       obs_trait := "peak yii value"; obs_method := method_name;
       obs_scale := "none"; obs_datatype := py_float;
       obs_value_of := VFloat (nth i yii_max nan);
       obs_label_of := LStr "none" |};
    {| obs_sample := label; obs_variable := ("yii_hist_" ++ mlabel)%string;
       obs_trait := "yii frequencies"; obs_method := method_name;
       obs_scale := "none"; obs_datatype := py_list;
       obs_value_of := VList (Plant_Pixels hist_df);
       obs_label_of := LList (map F64.around2 (bin_edge hist_df)) |} ].

(** The figure one loop iteration builds. *)
Definition figure_of (yii : list (list (list float)))
    (measurement_labels : option (list string)) (item : nat * string) : ggplot :=
  snd (_create_histogram (isel_measurement (fst item) yii)
         (resolve_label measurement_labels (fst item) (snd item))).

(** The statistic kinds recorded for one measurement, by their trait. *)
Definition traits_per_measurement : list string :=
  ["median yii value"; "mode yii value"; "peak yii value"; "yii frequencies"]%string.

Definition empty_outputs : Outputs := {| observations := []; images := [] |}.

Definition is_dark {pixel} (ps_da : DataArray pixel) : bool :=
  String.eqb (Str.lower (da_name ps_da)) "darkadapted".

Definition is_light {pixel} (ps_da : DataArray pixel) : bool :=
  String.eqb (Str.lower (da_name ps_da)) "lightadapted".

(** The precondition checks of the source, as one predicate per check. *)
Definition shape_matches {pixel} (ps_da : DataArray pixel) (mask : ndarray) : bool :=
  shape_eqb (shape2 (nd_values mask)) (shape2 (da_values ps_da)).

Definition mask_accepted (mask : ndarray) : bool :=
  Nat.leb (length (unique mask)) 2 && String.eqb (dtype mask) "uint8".

Definition labels_match {pixel} (ps_da : DataArray pixel)
    (measurement_labels : option (list string)) : bool :=
  match measurement_labels with
  | Some ls => Nat.eqb (length ls) (length (measurement ps_da))
  | None => true
  end.

(** The frames the variant's formula selects are among the stack's frame
    labels. *)
Definition has_frames {pixel} (ps_da : DataArray pixel) : bool :=
  if is_dark ps_da then
    existsb (String.eqb "Fm") (frame_label ps_da)
    && existsb (String.eqb "F0") (frame_label ps_da)
  else
    existsb (String.eqb "Fmp") (frame_label ps_da)
    && existsb (String.eqb "Fp") (frame_label ps_da).

(** What a run that got past the checks and the variant dispatch with the
    efficiency map [yii] records, returns as its array and returns as its
    figure. *)
Definition recorded {pixel} (ps_da : DataArray pixel)
    (labels : option (list string)) (label : string)
    (yii : list (list (list float))) : list observation :=
  let n := length (measurement ps_da) in
  flat_map (observe yii
              (reduce_xy Stats.nanmedian n (where_positive yii))
              (reduce_xy Stats.mode n (where_positive yii))
              (reduce_xy Stats.nanmax n (where_positive yii))
              labels label)
           (enumerate (measurement ps_da)).

Definition result_array {pixel} (ps_da : DataArray pixel)
    (yii : list (list (list float))) : YiiArray :=
  {| yii_values := yii;
     yii_measurement := measurement ps_da;
     yii_coords := drop_frame_coords (da_coords ps_da) |}.

Definition last_figure {pixel} (ps_da : DataArray pixel)
    (labels : option (list string)) (yii : list (list (list float)))
  : option ggplot :=
  fold_left (fun _ item => Some (figure_of yii labels item))
            (enumerate (measurement ps_da)) None.

(** The frame at position [j] of the frame axis, and the efficiency formula
    on the frames at positions [hi] and [lo]. *)
Definition frame_at (j : nat) (a : list (list (list (list float))))
  : list (list (list float)) :=
  map (map (fun frames => nth j frames [])) a.

Definition yii_formula (hi lo : nat) (a : list (list (list (list float))))
  : list (list (list float)) :=
  elementwise PrimFloat.div
    (elementwise PrimFloat.sub (frame_at hi a) (frame_at lo a)) (frame_at hi a).

(** The value of a masked, float-cast pixel. *)
Definition masked {pixel} (astype_float : pixel -> float) (mv : Z) (v : pixel)
  : float :=
  if (0 <? mv)%Z then astype_float v else nan.

(** A float64 that is neither NaN, nor infinite, nor a zero. *)
Definition finite_nonzero (f : float) : bool :=
  PrimFloat.is_finite f && negb (PrimFloat.is_zero f).

(** A 2x2x2x1 stack of integer counts whose frame "F0" holds [f0] and whose
    frame "Fm" holds [fm] at every pixel, and a 2x2 uint8 mask holding [v]
    at every pixel. *)
Definition uniform_stack (name : string) (f0 fm : Z) : DataArray Z :=
  {| da_name := name;
     da_values := [ [ [[f0]; [fm]]; [[f0]; [fm]] ];
                    [ [[f0]; [fm]]; [[f0]; [fm]] ] ];
     frame_label := ["F0"; "Fm"]%string;
     measurement := ["t0"]%string;
     da_coords := ["x"; "y"; "frame_label"; "measurement"; "frame_num"]%string |}.

Definition uniform_mask (v : Z) : ndarray :=
  {| dtype := "uint8"; nd_values := [[v; v]; [v; v]] |}.

(** The variable and value of an observation. *)
Definition obs_pair (ob : observation) : string * obs_value :=
  (obs_variable ob, obs_value_of ob).

(** A 2x2 uint8 mask that leaves out pixel (0, 0) only. *)
Definition corner_mask : ndarray :=
  {| dtype := "uint8"; nd_values := [[0; 255]; [255; 255]]%Z |}.

(** The variable names recorded for one measurement. *)
Definition variables_of (measurement_labels : option (list string))
    (item : nat * string) : list string :=
  let mlabel := resolve_label measurement_labels (fst item) (snd item) in
  [ "yii_median_" ++ mlabel; "yii_mode_" ++ mlabel;
    "yii_max_" ++ mlabel; "yii_hist_" ++ mlabel ]%string.

(** A 2x2 uint8 mask with the two values 5 and 7, and one with three
    distinct values. *)
Definition mask_5_7 : ndarray :=
  {| dtype := "uint8"; nd_values := [[5; 7]; [5; 7]]%Z |}.

Definition mask_three_values : ndarray :=
  {| dtype := "uint8"; nd_values := [[0; 128]; [255; 255]]%Z |}.

(** A 1x2 uint8 mask. *)
Definition mask_1x2 : ndarray :=
  {| dtype := "uint8"; nd_values := [[255; 255]]%Z |}.

(** A one-pixel dark-adapted stack with two measurements: F0 = 1, Fm = 2 at
    "t0" and F0 = 2, Fm = 8 at "t1"; and its one-pixel mask. *)
Definition two_measurement_stack : DataArray Z :=
  {| da_name := "darkadapted";
     da_values := [ [ [[1; 2]; [2; 8]] ] ]%Z;
     frame_label := ["F0"; "Fm"]%string;
     measurement := ["t0"; "t1"]%string;
     da_coords := ["x"; "y"; "frame_label"; "measurement"]%string |}.

Definition mask_1x1 : ndarray :=
  {| dtype := "uint8"; nd_values := [[255]]%Z |}.

(** A dark-adapted 2x2 stack with both frames and no measurement at all. *)
Definition no_measurement_stack : DataArray Z :=
  {| da_name := "darkadapted";
     da_values := [ [ [[]; []]; [[]; []] ]; [ [[]; []]; [[]; []] ] ];
     frame_label := ["F0"; "Fm"]%string;
     measurement := [];
     da_coords := ["x"; "y"; "frame_label"; "measurement"]%string |}.

(** ** The ENVI writer, [write_data]
    ([plantcv/plantcv/hyperspectral/write_data.py]) *)

Module Envi.

(** [s.rfind(c)]: the position of the last [c] in [s], -1 when there is
    none; [i] is the position of the first character of [s]. *)
Fixpoint rfind_from (c : ascii) (s : string) (i : Z) : Z :=
  match s with
  | EmptyString => (-1)%Z
  | String a s' =>
      let r := rfind_from c s' (i + 1)%Z in
      if (r =? -1)%Z then (if Ascii.eqb a c then i else (-1)%Z) else r
  end.

Definition rfind (c : ascii) (s : string) : Z := rfind_from c s 0.

(** The slices [p[:n]] and [p[n:]]. *)
Definition slice_to (n : nat) (p : string) : string := substring 0 n p.

Definition slice_from (n : nat) (p : string) : string :=
  substring n (String.length p - n) p.

(** The loop of [genericpath._splitext] that skips the leading dots of the
    last path component: [true] as soon as a character other than a dot
    stands before the last dot. *)
Fixpoint has_name (p : string) (filenameIndex steps : nat) : bool :=
  match steps with
  | 0 => false
  | S steps' =>
      if negb (String.eqb (substring filenameIndex 1 p) ".") then true
      else has_name p (S filenameIndex) steps'
  end.

(** [os.path.splitext] (the POSIX flavour: separator "/", extension
    separator "."). *)
Definition splitext (p : string) : string * string :=
  let sepIndex := rfind "/" p in
  let dotIndex := rfind "." p in
  if (sepIndex <? dotIndex)%Z then
    let filenameIndex := Z.to_nat (sepIndex + 1) in
    if has_name p filenameIndex (Z.to_nat dotIndex - filenameIndex)
    then (slice_to (Z.to_nat dotIndex) p, slice_from (Z.to_nat dotIndex) p)
    else (p, EmptyString)
  else (p, EmptyString).

(** The newline character as a string. *)
Definition nl : string := String "010"%char EmptyString.

(** The exceptions the writer can raise by itself. *)
Inductive error :=
| KeyError (key : string)
| IndexError (msg : string).

Inductive outcome (A : Type) :=
| Returns (a : A)
| Raises (e : error).

Arguments Returns {A} a.
Arguments Raises {A} e.

(** The files of the file system: a text file or a binary file by path. *)
Inductive content :=
| Text (s : string)
| Binary (b : list Byte.byte).

Definition FS : Type := string -> option content.

Definition fs_set (path : string) (c : content) (fs : FS) : FS :=
  fun q => if String.eqb q path then Some c else fs q.

(** [open(path, mode='w')] and [open(path, mode='w+b')] create the file or
    truncate it. *)
Definition open_w (path : string) (fs : FS) : FS := fs_set path (Text "") fs.

Definition open_wb (path : string) (fs : FS) : FS := fs_set path (Binary []) fs.

(** [f.write(s)] on a file opened for text, and [f.write(b)] on one opened
    for bytes: the data goes after what the file holds.  The file is closed
    when its [with] block is left, also by an exception, so that what was
    written before stays in the file. *)
Definition write (path : string) (s : string) (fs : FS) : FS :=
  match fs path with
  | Some (Text t) => fs_set path (Text (t ++ s)) fs
  | _ => fs_set path (Text s) fs
  end.

Definition write_bytes (path : string) (b : list Byte.byte) (fs : FS) : FS :=
  match fs path with
  | Some (Binary t) => fs_set path (Binary (t ++ b)) fs
  | _ => fs_set path (Binary b) fs
  end.

(** [dtype_dict]: the ENVI data-type code of a numpy type character. *)
Definition dtype_dict : list (string * string) :=
  [ ("B", "1"); ("h", "2"); ("i", "3"); ("f", "4"); ("d", "5"); ("F", "6");
    ("D", "9"); ("H", "12"); ("I", "13"); ("l", "14"); ("L", "15") ]%string.

Fixpoint dict_get (k : string) (d : list (string * string)) : option string :=
  match d with
  | [] => None
  | (k', v) :: d' => if String.eqb k' k then Some v else dict_get k d'
  end.

(** The transpose of a matrix given by its rows. *)
Fixpoint transpose {A} (m : list (list A)) : list (list A) :=
  match m with
  | [] => []
  | row :: rest =>
      match rest with
      | [] => map (fun x => [x]) row
      | _ => map2 cons row (transpose rest)
      end
  end.

(** [a.shape] of a 3-D array. *)
Definition shape3 {A} (a : list (list (list A))) : nat * nat * nat :=
  (length a, length (hd [] a), length (hd [] (hd [] a))).

(** The hyperspectral data object, by the attributes the writer reads:
    the array over (lines, samples, bands), its dtype character, the
    wavelength dictionary in insertion order, the wavelength units and the
    default bands. *)
Record Spectral_data (E K V B : Type) := {
  array_data : list (list (list E));
  dtype_char : string;
  wavelength_dict : list (K * V);
  wavelength_units : string;
  default_bands : B
}.

Section WriteData.

(** The array's element type with numpy's byte image of one element, the
    types of the wavelength keys and of the default bands with Python's
    [str] on them, and [__version__]. *)
Variables E K V B : Type.
Variable tobytes1 : E -> list Byte.byte.
Variable str_key : K -> string.
Variable str_bands : B -> string.
Variable __version__ : string.

(** [a.transpose(0, 2, 1).tobytes(order='C')] *)
Definition elements_bil (a : list (list (list E))) : list E :=
  concat (concat (map transpose a)).

Definition tobytes_bil (a : list (list (list E))) : list Byte.byte :=
  concat (map tobytes1 (elements_bil a)).

(** Lines 26-31: the part of the header written before the data type is
    looked up. *)
Definition header_head (lines samples bands : nat) : list string :=
  [ "ENVI" ++ nl;
    "; this file was created using PlantCV version " ++ __version__ ++ nl;
    "interleave = bil" ++ nl;
    "samples = " ++ Str.of_nat samples ++ nl;
    "lines = " ++ Str.of_nat lines ++ nl;
    "bands = " ++ Str.of_nat bands ++ nl ]%string.

(** Lines 32-35. *)
Definition header_body (code : string) (sd : Spectral_data E K V B)
  : list string :=
  [ "data type = " ++ code ++ nl;
    "wavelength units = " ++ wavelength_units sd ++ nl;
    "default bands =" ++ str_bands (default_bands sd) ++ nl;
    "wavelength = {" ++ nl ]%string.

Definition write_all (path : string) (ss : list string) (fs : FS) : FS :=
  fold_left (fun fs s => write path s fs) ss fs.

Definition write_data (filename : string) (spectral_data : Spectral_data E K V B)
    (fs : FS) : outcome bool * FS :=
  let filename := fst (splitext filename) in
  let '(lines, samples, bands) := shape3 (array_data spectral_data) in
  let wavelenghths := map fst (wavelength_dict spectral_data) in
  let hdr := (filename ++ ".hdr")%string in
  let fs := open_w hdr fs in
  let fs := write_all hdr (header_head lines samples bands) fs in
  match dict_get (dtype_char spectral_data) dtype_dict with
  | None => (Raises (KeyError (dtype_char spectral_data)), fs)
  | Some code =>
      let fs := write_all hdr (header_body code spectral_data) fs in
      let fs := write_all hdr
                  (map (fun wl => (str_key wl ++ "," ++ nl)%string)
                       (removelast wavelenghths)) fs in
      match wavelenghths with
      | [] => (Raises (IndexError "list index out of range"), fs)
      | wl0 :: wls =>
          let fs := write hdr (str_key (last wls wl0) ++ nl)%string fs in
          let fs := write hdr "}" fs in
          let raw := (filename ++ ".raw")%string in
          let fs := open_wb raw fs in
          let fs := write_bytes raw (tobytes_bil (array_data spectral_data)) fs in
          (Returns true, fs)
      end
  end.

End WriteData.

End Envi.

(** Whether the character [c] occurs in [s]. *)
Fixpoint mem_char (c : ascii) (s : string) : bool :=
  match s with
  | EmptyString => false
  | String a s' => Ascii.eqb a c || mem_char c s'
  end.

(** The text a sequence of [write] calls leaves in a fresh file. *)
Definition text_of (ss : list string) : string :=
  fold_right String.append EmptyString ss.

(** The dtype characters the writer has an ENVI code for. *)
Definition supported (c : string) : bool :=
  existsb (String.eqb c) (map fst Envi.dtype_dict).

(** The header of a successful call: the fixed fields, then the wavelengths
    separated by a comma and a newline, then the closing brace. *)
Definition envi_header {E K V B : Type} (str_key : K -> string)
    (str_bands : B -> string) (version code : string)
    (sd : Envi.Spectral_data E K V B) : string :=
  let '(lines, samples, bands) := Envi.shape3 (Envi.array_data sd) in
  (text_of (Envi.header_head version lines samples bands)
   ++ text_of (Envi.header_body str_bands code sd)
   ++ String.concat ("," ++ Envi.nl)
        (map str_key (map fst (Envi.wavelength_dict sd)))
   ++ Envi.nl ++ "}")%string.

(** [fs'] is [fs] with the text [t] in the file [path]. *)
Definition holds_text (fs' : Envi.FS) (path t : string) (fs : Envi.FS) : Prop :=
  forall q, fs' q = if String.eqb q path then Some (Envi.Text t) else fs q.

(** The two paths a call writes to. *)
Definition hdr_path (filename : string) : string :=
  (fst (Envi.splitext filename) ++ ".hdr")%string.

Definition raw_path (filename : string) : string :=
  (fst (Envi.splitext filename) ++ ".raw")%string.

(** numpy's byte image of a [uint8] element (one byte), and a 2x2x3 cube
    of such elements with its wavelengths. *)
Definition uint8_bytes (n : nat) : list Byte.byte :=
  [ match Byte.of_nat (n mod 256) with
    | Some b => b
    | None => Byte.x00
    end ].

Definition cube_2x2x3 (char : string) (wavelengths : list (nat * nat))
  : Envi.Spectral_data nat nat nat string :=
  {| Envi.array_data := [ [[1; 2; 3]; [4; 5; 6]]; [[7; 8; 9]; [10; 11; 12]] ];
     Envi.dtype_char := char;
     Envi.wavelength_dict := wavelengths;
     Envi.wavelength_units := "nm";
     Envi.default_bands := "[1, 2]"%string |}.

Definition empty_fs : Envi.FS := fun _ => None.

(** The writer on cubes of bytes. *)
Definition write_cube (filename : string)
    (sd : Envi.Spectral_data nat nat nat string) (fs : Envi.FS)
  : Envi.outcome bool * Envi.FS :=
  Envi.write_data uint8_bytes Str.of_nat (fun s => s) "4.0"%string filename sd fs.

(** A matrix with [r] rows of [c] entries, and an array with [L] lines of
    [S] samples of [B] bands. *)
Definition rect2 {A} (m : list (list A)) (r c : nat) : Prop :=
  length m = r /\ Forall (fun row => length row = c) m.

Definition rect3 {A} (a : list (list (list A))) (L S B : nat) : Prop :=
  length a = L /\ Forall (fun line => rect2 line S B) a.

(** The last component of a path (what follows its last slash), and whether
    a string has a character other than a dot. *)
Definition basename (p : string) : string :=
  Envi.slice_from (Z.to_nat (Envi.rfind "/" p + 1)) p.

Fixpoint has_non_dot (s : string) : bool :=
  match s with
  | EmptyString => false
  | String c s' => negb (Ascii.eqb c ".") || has_non_dot s'
  end.

(** A one-pixel light-adapted stack with two measurements: Fp = 1, Fmp = 2
    at "t0" and Fp = 2, Fmp = 8 at "t1". *)
Definition light_stack : DataArray Z :=
  {| da_name := "LightAdapted";
     da_values := [ [ [[1; 2]; [2; 8]] ] ]%Z;
     frame_label := ["Fp"; "Fmp"]%string;
     measurement := ["t0"; "t1"]%string;
     da_coords := ["x"; "y"; "frame_label"; "frame_num"; "measurement"]%string |}.

(** * Properties *)

(** ** Order facts on float64 *)

Module F64Order.

Lemma SFcompare_antisym x y :
SFcompare y x = option_map CompOpp (SFcompare x y).
Proof.
destruct x as [sx|sx| |sx mx ex], y as [sy|sy| |sy my ey]; simpl;
  try reflexivity; try (destruct sx; reflexivity); try (destruct sy; reflexivity);
  try (destruct sx, sy; reflexivity).
destruct sx, sy; simpl; try reflexivity;
  rewrite (Z.compare_antisym ey ex);
  destruct (Z.compare ey ex) eqn:E; simpl; try reflexivity;
  rewrite !Pos.compare_cont_spec; simpl;
  rewrite (Pos.compare_antisym my mx);
  destruct (Pos.compare my mx); reflexivity.
Qed.

Lemma SFltb_negb_leb x y :
SFcompare x y <> None -> SFltb x y = negb (SFleb y x).
Proof.
unfold SFltb, SFleb. rewrite (SFcompare_antisym x y).
destruct (SFcompare x y) as [[]|]; simpl; congruence.
Qed.

Ltac key_case :=
split;
[ let K := fresh "K" in
  intros K; try discriminate K; repeat split; try discriminate; lia
| let K := fresh "K" in
  intros (_ & _ & K); try reflexivity; exfalso; lia ].

Lemma SFleb_key x y :
SFleb x y = true <-> (x <> S754_nan /\ y <> S754_nan /\ lex_le (key x) (key y)).
Proof.
unfold SFleb.
destruct x as [sx|sx| |sx mx ex], y as [sy|sy| |sy my ey]; simpl;
  try (split; [discriminate | intros (H1 & H2 & H3); congruence]);
  try (destruct sx); try (destruct sy); simpl; try key_case.
all: destruct (Z.compare_spec ex ey); rewrite ?Pos.compare_cont_spec; simpl;
  try key_case.
all: destruct (Pos.compare_spec mx my); simpl; key_case.
Qed.

Lemma SFleb_trans x y z :
SFleb x y = true -> SFleb y z = true -> SFleb x z = true.
Proof.
rewrite !SFleb_key. intros (Hx & Hy & H1) (_ & Hz & H2).
repeat split; trivial.
unfold lex_le in *.
destruct (key x) as [[a1 a2] a3], (key y) as [[b1 b2] b3], (key z) as [[c1 c2] c3].
lia.
Qed.

Lemma SFltb_leb x y : SFltb x y = true -> SFleb x y = true.
Proof.
unfold SFltb, SFleb. destruct (SFcompare x y) as [[]|]; congruence.
Qed.

Lemma SFcompare_None x y :
SFcompare x y = None -> x = S754_nan \/ y = S754_nan.
Proof.
destruct x as [sx|sx| |sx mx ex], y as [sy|sy| |sy my ey]; simpl;
  try discriminate; auto.
Qed.

Lemma SFleb_refl x : x <> S754_nan -> SFleb x x = true.
Proof.
intros H. apply SFleb_key. repeat split; trivial.
unfold lex_le. destruct (key x) as [[a b] c]. lia.
Qed.

Lemma leb_trans x y z :
PrimFloat.leb x y = true -> PrimFloat.leb y z = true -> PrimFloat.leb x z = true.
Proof. rewrite !leb_spec. apply SFleb_trans. Qed.

Lemma ltb_leb x y : PrimFloat.ltb x y = true -> PrimFloat.leb x y = true.
Proof. rewrite ltb_spec, leb_spec. apply SFltb_leb. Qed.

Lemma leb_refl_r x y : PrimFloat.leb x y = true -> PrimFloat.leb y y = true.
Proof.
rewrite !leb_spec. intros H. apply SFleb_key in H as (_ & H & _).
now apply SFleb_refl.
Qed.

Lemma leb_refl_l x y : PrimFloat.leb x y = true -> PrimFloat.leb x x = true.
Proof.
rewrite !leb_spec. intros H. apply SFleb_key in H as (H & _ & _).
now apply SFleb_refl.
Qed.

Lemma ltb_negb_leb x y :
PrimFloat.leb x x = true -> PrimFloat.leb y y = true ->
PrimFloat.ltb x y = negb (PrimFloat.leb y x).
Proof.
rewrite ltb_spec, !leb_spec. intros Hx Hy.
apply SFleb_key in Hx as (Hx & _). apply SFleb_key in Hy as (Hy & _).
apply SFltb_negb_leb. intros H. apply SFcompare_None in H. tauto.
Qed.

End F64Order.

(** ** The histogram builder *)

Lemma last_nonempty (A : Type) (l : list A) (x d d' : A) :
  last (x :: l) d = last (x :: l) d'.
Proof.
  revert x. induction l as [|y l IH]; intros x; [reflexivity|].
  change (last (x :: y :: l) d) with (last (y :: l) d).
  change (last (x :: y :: l) d') with (last (y :: l) d'). apply IH.
Qed.

Lemma sorted_leb_last es : forall lo hi d,
  sorted (lo :: hi :: es) = true ->
  PrimFloat.leb lo (last (hi :: es) d) = true.
Proof.
  induction es as [|x r IH]; intros lo hi d Hs.
  - simpl in *. now rewrite andb_true_r in Hs.
  - change (sorted (lo :: hi :: x :: r))
      with (PrimFloat.leb lo hi && sorted (hi :: x :: r)) in Hs.
    apply andb_prop in Hs as [H1 H2].
    change (last (hi :: x :: r) d) with (last (x :: r) d).
    eapply F64Order.leb_trans; [exact H1|]. now apply IH.
Qed.

Lemma count_adj_sorted es : forall lo a,
  sorted (lo :: es) = true -> es <> [] ->
  count_adj (lo :: es) a
  = indicator (PrimFloat.leb lo a && PrimFloat.leb a (last es lo)).
Proof.
  induction es as [|hi rest IH]; intros lo a Hs Hne; [congruence|].
  destruct rest as [|hi2 rest'].
  - simpl. now rewrite Nat.add_0_r.
  - change (count_adj (lo :: hi :: hi2 :: rest') a)
      with (indicator (PrimFloat.leb lo a && PrimFloat.ltb a hi)
            + count_adj (hi :: hi2 :: rest') a).
    change (sorted (lo :: hi :: hi2 :: rest'))
      with (PrimFloat.leb lo hi && sorted (hi :: hi2 :: rest')) in Hs.
    apply andb_prop in Hs as [Hlh Hs].
    rewrite (IH hi a Hs) by discriminate.
    change (last (hi :: hi2 :: rest') lo) with (last (hi2 :: rest') lo).
    rewrite (last_nonempty rest' hi2 lo hi).
    pose proof (sorted_leb_last _ _ _ hi Hs) as Hhl.
    destruct (PrimFloat.leb a a) eqn:Ha.
    + rewrite (F64Order.ltb_negb_leb Ha (F64Order.leb_refl_r Hlh)).
      destruct (PrimFloat.leb hi a) eqn:Hhi; cbn [negb andb].
      * rewrite (F64Order.leb_trans Hlh Hhi). reflexivity.
      * assert (Hlt : PrimFloat.ltb a hi = true).
        { rewrite (F64Order.ltb_negb_leb Ha (F64Order.leb_refl_r Hlh)), Hhi. reflexivity. }
        rewrite (F64Order.leb_trans (F64Order.ltb_leb Hlt) Hhl).
        rewrite !andb_true_r. cbn [indicator]. now rewrite Nat.add_0_r.
    + assert (Hn : forall x, PrimFloat.leb x a = false).
      { intros x. destruct (PrimFloat.leb x a) eqn:E; trivial.
        apply F64Order.leb_refl_r in E. congruence. }
      rewrite !Hn. reflexivity.
Qed.

Lemma bins_as_adjacent a :
  list_sum (map (fun i => indicator (Np.in_bin (Np.linspace 0 1 101) 100 i a)) (seq 0 100))
  = count_adj (Np.linspace 0 1 101) a.
Proof. vm_compute. reflexivity. Qed.

Lemma edges_head :
  Np.linspace 0 1 101 = 0%float :: tl (Np.linspace 0 1 101).
Proof. vm_compute. reflexivity. Qed.

(** Every float64 falls in exactly one of the 100 bins when it lies in
    [[0, 1]], and in none otherwise. *)
Lemma one_bin a :
  list_sum (map (fun i => indicator (Np.in_bin (Np.linspace 0 1 101) 100 i a))
                (seq 0 100))
  = indicator (in_domain a).
Proof.
  rewrite bins_as_adjacent, edges_head.
  rewrite count_adj_sorted.
  - replace (last (tl (Np.linspace 0 1 101)) 0%float) with 1%float
      by (vm_compute; reflexivity).
    reflexivity.
  - rewrite <- edges_head. vm_compute. reflexivity.
  - vm_compute. discriminate.
Qed.

Lemma list_sum_map_add (A : Type) (f g : A -> nat) (l : list A) :
  list_sum (map (fun i => f i + g i) l)
  = list_sum (map f l) + list_sum (map g l).
Proof.
  induction l as [|x l IH]; simpl; [reflexivity|]. rewrite IH. lia.
Qed.

Lemma length_filter_cons (A : Type) (p : A -> bool) (a : A) (l : list A) :
  length (filter p (a :: l)) = indicator (p a) + length (filter p l).
Proof. simpl. destruct (p a); reflexivity. Qed.

Lemma histogram_sum (vals : list float) :
  list_sum (fst (Np.histogram vals 100 0 1)) = length (filter in_domain vals).
Proof.
  unfold Np.histogram, fst.
  induction vals as [|a vals IH].
  - vm_compute. reflexivity.
  - rewrite length_filter_cons, <- IH, <- one_bin, <- list_sum_map_add.
    f_equal. apply map_ext. intros i. apply length_filter_cons.
Qed.

Lemma filter_counted (l : list float) :
  filter in_domain (filter F64.gt0 l) = filter counted l.
Proof.
  induction l as [|a l IH]; [reflexivity|].
  unfold counted at 1. simpl. destruct (F64.gt0 a) eqn:Hg; simpl; [|exact IH].
  unfold in_domain at 1. unfold F64.gt0 in Hg.
  rewrite (F64Order.ltb_leb Hg). simpl. now rewrite IH.
Qed.

Lemma histogram_length (vals : list float) (bins : nat) (lo hi : float) :
  length (fst (Np.histogram vals bins lo hi)) = bins
  /\ length (snd (Np.histogram vals bins lo hi)) = S bins.
Proof.
  unfold Np.histogram, Np.linspace; cbn [fst snd].
  split; rewrite !length_map, !length_seq; reflexivity.
Qed.

Lemma create_histogram_table (yii_img : list (list float)) (mlabel : string) :
  Plant_Pixels (fst (_create_histogram yii_img mlabel))
  = fst (Np.histogram (filter F64.gt0 (concat yii_img)) 100 0 1)
  /\ bin_edge (fst (_create_histogram yii_img mlabel))
     = removelast (Np.linspace 0 1 101)
  /\ fig_peak_bin (snd (_create_histogram yii_img mlabel))
     = nth (Np.argmax (fst (Np.histogram (filter F64.gt0 (concat yii_img)) 100 0 1)))
           (Np.linspace 0 1 101) nan.
Proof. repeat split. Qed.

(** C6 (as the code has it): the table always has 100 bins whose lower
    edges are [i * (1/100)] for [i = 0 .. 99], starting at 0 (the last bin
    ends at 1); values outside the domain are counted in no bin, and the
    counts add up to the number of input values [v] with [0 < v <= 1].  On
    the values 0.1, 0.1, 0.5, 0.99 the only non-empty bins are bin 10
    (lower edge 0.1) with count 2, bin 50 (lower edge 0.5) with count 1 and
    bin 99 (lower edge 0.99) with count 1. *)
Theorem create_histogram_bins :
  (forall (yii_img : list (list float)) (mlabel : string),
     let hist_df := fst (_create_histogram yii_img mlabel) in
     length (Plant_Pixels hist_df) = 100
     /\ bin_edge hist_df
        = map (fun i => PrimFloat.add
                          (PrimFloat.mul (F64.of_nat i) (PrimFloat.div 1 100)) 0)
              (seq 0 100)
     /\ last (Np.linspace 0 1 101) nan = 1%float
     /\ list_sum (Plant_Pixels hist_df)
        = length (filter counted (concat yii_img)))
  /\ (let hist_df := fst (_create_histogram
                            [[0.1; 0.1]; [0.5; 0.99]]%float "t0") in
      nonzero_bins (Plant_Pixels hist_df) = [(10, 2); (50, 1); (99, 1)]
      /\ nth 10 (bin_edge hist_df) nan = 0.1%float
      /\ nth 50 (bin_edge hist_df) nan = 0.5%float
      /\ nth 99 (bin_edge hist_df) nan = 0.99%float).
Proof.
  split.
  - intros yii_img mlabel hist_df.
    destruct (create_histogram_table yii_img mlabel) as (Hc & He & _).
    fold hist_df in Hc, He. rewrite Hc, He.
    split; [|split; [|split]].
    + apply histogram_length.
    + vm_compute. reflexivity.
    + vm_compute. reflexivity.
    + rewrite histogram_sum. now rewrite filter_counted.
  - vm_compute. repeat split.
Qed.

(** C6, the claim as worded, fails: the value 0.0 lies in the domain
    [[0, 1]], yet the builder drops it before binning, so one in-range value
    is counted in no bin. *)
Lemma create_histogram_drops_zero :
  list_sum (Plant_Pixels (fst (_create_histogram [[0%float]] "t0"))) = 0
  /\ length (filter in_domain (concat [[0%float]])) = 1.
Proof. vm_compute. split; reflexivity. Qed.

(** *** The peak bin *)

Lemma first_max_snoc_new (pre : list nat) (bi c : nat) :
  first_max pre bi -> nth bi pre 0 < c ->
  first_max (pre ++ [c]) (length pre).
Proof.
  intros (Hlt & Hmax & Hfirst) Hc.
  assert (Hn : nth (length pre) (pre ++ [c]) 0 = c)
    by (rewrite app_nth2, Nat.sub_diag by lia; reflexivity).
  unfold first_max. rewrite Hn, length_app. simpl.
  repeat split; [lia| |].
  - intros j Hj. destruct (Nat.eq_dec j (length pre)) as [->|Hne].
    + rewrite Hn. lia.
    + rewrite app_nth1 by lia. specialize (Hmax j). lia.
  - intros j Hj. rewrite app_nth1 by lia. specialize (Hmax j). lia.
Qed.

Lemma first_max_snoc_old (pre : list nat) (bi c : nat) :
  first_max pre bi -> c <= nth bi pre 0 ->
  first_max (pre ++ [c]) bi.
Proof.
  intros (Hlt & Hmax & Hfirst) Hc.
  unfold first_max. rewrite length_app. simpl.
  rewrite (app_nth1 pre [c] 0 Hlt).
  repeat split; [lia| |].
  - intros j Hj. destruct (Nat.eq_dec j (length pre)) as [->|Hne].
    + rewrite app_nth2, Nat.sub_diag by lia. exact Hc.
    + rewrite app_nth1 by lia. apply Hmax. lia.
  - intros j Hj. rewrite app_nth1 by lia. now apply Hfirst.
Qed.

Lemma argmax_from_first_max (l : list nat) : forall (pre : list nat) (bi : nat),
  first_max pre bi ->
  first_max (pre ++ l) (Np.argmax_from bi (nth bi pre 0) (length pre) l).
Proof.
  induction l as [|c l IH]; intros pre bi Hfm.
  - rewrite app_nil_r. exact Hfm.
  - cbn [Np.argmax_from].
    replace (pre ++ c :: l) with ((pre ++ [c]) ++ l)
      by (rewrite <- app_assoc; reflexivity).
    destruct (Nat.ltb (nth bi pre 0) c) eqn:Hlt.
    + apply Nat.ltb_lt in Hlt.
      pose proof (first_max_snoc_new Hfm Hlt) as Hnew.
      specialize (IH (pre ++ [c]) (length pre) Hnew).
      rewrite length_app, Nat.add_1_r in IH.
      rewrite app_nth2, Nat.sub_diag in IH by lia. exact IH.
    + apply Nat.ltb_ge in Hlt.
      pose proof (first_max_snoc_old Hfm Hlt) as Hold.
      specialize (IH (pre ++ [c]) bi Hold).
      rewrite length_app, Nat.add_1_r in IH.
      destruct Hfm as (Hb & _).
      rewrite (app_nth1 pre [c] 0 Hb) in IH. exact IH.
Qed.

Lemma argmax_first_max (l : list nat) :
  l <> [] -> first_max l (Np.argmax l).
Proof.
  destruct l as [|c l]; [congruence|]. intros _.
  assert (H0 : first_max [c] 0).
  { unfold first_max; simpl. repeat split; [lia| |lia].
    intros [|j] Hj; [lia|]. lia. }
  exact (argmax_from_first_max l H0).
Qed.

Lemma nth_removelast (A : Type) (l : list A) (d : A) (k : nat) :
  S k < length l -> nth k (removelast l) d = nth k l d.
Proof.
  revert k. induction l as [|a l IH]; intros k Hk; [simpl in Hk; lia|].
  destruct l as [|b l]; [simpl in Hk; lia|].
  change (removelast (a :: b :: l)) with (a :: removelast (b :: l)).
  destruct k as [|k]; [reflexivity|].
  simpl nth. apply IH. simpl in *. lia.
Qed.

Lemma filter_all_false (A : Type) (p : A -> bool) (l : list A) :
  (forall v, In v l -> p v = false) -> filter p l = [].
Proof.
  induction l as [|a l IH]; intros H; [reflexivity|].
  simpl. rewrite (H a (or_introl eq_refl)). apply IH.
  intros v Hv. apply H. now right.
Qed.

(** C10: the peak-bin annotation is the lower edge of the first bin that
    holds the highest count: no bin has a higher count, and every bin before
    it has a strictly lower one.  When the input holds no positive value
    every bin count is 0 and the annotated edge is 0.0. *)
Theorem create_histogram_peak_is_first_max
    (yii_img : list (list float)) (mlabel : string) :
  let hist_df := fst (_create_histogram yii_img mlabel) in
  let hist_fig := snd (_create_histogram yii_img mlabel) in
  (exists k,
      first_max (Plant_Pixels hist_df) k
      /\ fig_peak_bin hist_fig = nth k (bin_edge hist_df) nan)
  /\ ((forall v, In v (concat yii_img) -> F64.gt0 v = false) ->
      Plant_Pixels hist_df = repeat 0 100
      /\ fig_peak_bin hist_fig = 0%float).
Proof.
  intros hist_df hist_fig.
  destruct (create_histogram_table yii_img mlabel) as (Hc & He & Hp).
  fold hist_df in Hc, He. fold hist_fig in Hp.
  split.
  - exists (Np.argmax (Plant_Pixels hist_df)).
    assert (Hfm : first_max (Plant_Pixels hist_df) (Np.argmax (Plant_Pixels hist_df))).
    { apply argmax_first_max. intros E.
      pose proof (proj1 (histogram_length (filter F64.gt0 (concat yii_img)) 100 0 1)) as Hl.
      rewrite <- Hc, E in Hl. discriminate Hl. }
    split; [exact Hfm|].
    rewrite Hp, He, <- Hc. symmetry. apply nth_removelast.
    destruct Hfm as (Hk & _).
    rewrite Hc in Hk at 2.
    rewrite (proj1 (histogram_length _ 100 0 1)) in Hk.
    replace (length (Np.linspace 0 1 101)) with 101
      by (unfold Np.linspace; now rewrite length_map, length_seq).
    lia.
  - intros Hnone.
    rewrite Hp, Hc, (@filter_all_false _ F64.gt0 _ Hnone).
    vm_compute. split; reflexivity.
Qed.

(** The peak of a stack plane without any positive value (a masked-out
    pixel, a zero and a negative value). *)
Lemma create_histogram_peak_witness :
  (forall v, In v (concat [[nan; 0%float]; [(-0.5)%float; neg_zero]]) ->
             F64.gt0 v = false)
  /\ fig_peak_bin (snd (_create_histogram
                          [[nan; 0%float]; [(-0.5)%float; neg_zero]] "t0"))
     = 0%float.
Proof.
  assert (H : forall v, In v (concat [[nan; 0%float]; [(-0.5)%float; neg_zero]]) ->
                        F64.gt0 v = false).
  { simpl. intros v [<-|[<-|[<-|[<-|[]]]]]; vm_compute; reflexivity. }
  split; [exact H|].
  exact (proj2 (proj2 (create_histogram_peak_is_first_max
                         [[nan; 0%float]; [(-0.5)%float; neg_zero]] "t0") H)).
Defined.

(** ** The analyzer *)

Section AnalyzerFacts.

Variable pixel : Type.
Variable astype_float : pixel -> float.

Lemma validate_eq (ps_da : DataArray pixel) (mask : ndarray)
    (measurement_labels : option (list string)) (o : Outputs) :
  validate ps_da mask measurement_labels o =
  if negb (shape_matches ps_da mask) then
    (Raise (FatalError ("Mask needs to have shape "
                        ++ Str.of_shape (shape2 (da_values ps_da)))), o)
  else if negb (mask_accepted mask) then
    (Raise (FatalError "Mask must have dtype uint8 and be binary"), o)
  else if negb (labels_match ps_da measurement_labels) then
    (Raise (FatalError
       "measurement_labels must be the same length as the number of measurements in the DataArray"), o)
  else (Ok tt, o).
Proof.
  unfold validate, shape_matches, mask_accepted, labels_match, bind,
    fatal_error, raise, ret.
  destruct (shape_eqb _ _); cbn [negb]; [|reflexivity].
  rewrite Nat.ltb_antisym.
  destruct (Nat.leb _ 2); cbn [negb orb andb]; [|reflexivity].
  destruct (String.eqb (dtype mask) "uint8"); cbn [negb]; [|reflexivity].
  destruct measurement_labels as [ls|]; [|reflexivity].
  destruct (Nat.eqb _ _); reflexivity.
Qed.

Lemma loop_body_eq (yii : list (list (list float)))
    (med mode mx : list float) (labels : option (list string))
    (label : string) (i : nat) (mlabel : string) (o : Outputs) :
  loop_body yii med mode mx labels label i mlabel o =
  (Ok (figure_of yii labels (i, mlabel)),
   {| observations :=
        observations o ++ observe yii med mode mx labels label (i, mlabel);
      images := images o |}).
Proof.
  unfold loop_body, figure_of, observe, _create_histogram, Np.histogram,
    bind, add_observation, ret.
  cbn [fst snd observations images].
  rewrite <- !app_assoc. reflexivity.
Qed.

Lemma loop_eq (yii : list (list (list float)))
    (med mode mx : list float) (labels : option (list string))
    (label : string) (items : list (nat * string)) :
  forall (hist_fig : option ggplot) (o : Outputs),
  loop (loop_body yii med mode mx labels label) items hist_fig o =
  (Ok (fold_left (fun _ item => Some (figure_of yii labels item)) items hist_fig),
   {| observations :=
        observations o
        ++ flat_map (observe yii med mode mx labels label) items;
      images := images o |}).
Proof.
  induction items as [|[i mlabel] items IH]; intros hist_fig o.
  - simpl. rewrite app_nil_r. destruct o; reflexivity.
  - cbn [loop]. unfold bind at 1. rewrite loop_body_eq, IH.
    cbn [observations images flat_map fold_left].
    rewrite <- app_assoc. reflexivity.
Qed.

(** [analyze_yii], one phase after the other. *)
Lemma analyze_yii_eq (ps_da : DataArray pixel) (mask : ndarray)
    (labels : option (list string)) (label : string) (o : Outputs) :
  analyze_yii astype_float ps_da mask labels label o =
  match validate ps_da mask labels o with
  | (Raise e, o1) => (Raise e, o1)
  | (Ok _, o1) =>
      match efficiency astype_float ps_da mask o1 with
      | (Raise e, o2) => (Raise e, o2)
      | (Ok None, o2) => (Raise (UnboundLocalError "yii"), o2)
      | (Ok (Some yii), o2) =>
          match groupby_measurement (length (measurement ps_da)) o2 with
          | (Raise e, o3) => (Raise e, o3)
          | (Ok _, o3) =>
              let o4 := {| observations :=
                             observations o3 ++ recorded ps_da labels label yii;
                           images := images o3 ++ [result_array ps_da yii] |} in
              match last_figure ps_da labels yii with
              | Some fig => (Ok (result_array ps_da yii, fig), o4)
              | None => (Raise (UnboundLocalError "hist_fig"), o4)
              end
          end
      end
  end.
Proof.
  unfold analyze_yii. unfold bind at 1.
  destruct (validate ps_da mask labels o) as [[u|e] o1]; [|reflexivity].
  unfold bind at 1.
  destruct (efficiency astype_float ps_da mask o1) as [[[yii|]|e] o2];
    [|reflexivity|reflexivity].
  unfold bind at 1. cbn [local]. unfold ret at 1.
  unfold bind at 1.
  destruct (groupby_measurement (length (measurement ps_da)) o2) as [[u'|e] o3];
    [|reflexivity].
  unfold bind at 1. rewrite loop_eq.
  fold (last_figure ps_da labels yii). fold (recorded ps_da labels label yii).
  fold (result_array ps_da yii).
  unfold bind, images_append, local, ret, raise. cbn [observations images].
  destruct (last_figure ps_da labels yii); reflexivity.
Qed.

End AnalyzerFacts.

(** *** Entry-wise reading of the array operations *)

Lemma nth_error_map2 (A B C : Type) (f : A -> B -> C) (l1 : list A) :
  forall (l2 : list B) (i : nat),
  nth_error (map2 f l1 l2) i =
  match nth_error l1 i, nth_error l2 i with
  | Some a, Some b => Some (f a b)
  | _, _ => None
  end.
Proof.
  unfold map2.
  induction l1 as [|a l1 IH]; intros l2 i.
  - destruct i; reflexivity.
  - destruct l2 as [|b l2].
    + destruct i as [|i]; simpl; [reflexivity|]. destruct (nth_error l1 i); reflexivity.
    + destruct i as [|i]; simpl; [reflexivity|]. apply IH.
Qed.

Lemma nth_error_nth_nil (A : Type) (l : list (list A)) (j m : nat) :
  nth_error (nth j l []) m =
  match nth_error l j with
  | Some ms => nth_error ms m
  | None => None
  end.
Proof.
  revert j. induction l as [|a l IH]; intros [|j]; simpl;
    try reflexivity; try (destruct m; reflexivity). apply IH.
Qed.

Lemma get3_elementwise (op : float -> float -> float)
    (a b : list (list (list float))) (x y m : nat) :
  get3 (elementwise op a b) x y m =
  match get3 a x y m, get3 b x y m with
  | Some u, Some v => Some (op u v)
  | _, _ => None
  end.
Proof.
  unfold get3, get2, elementwise.
  rewrite nth_error_map2.
  destruct (nth_error a x) as [ra|], (nth_error b x) as [rb|]; try reflexivity.
  - rewrite nth_error_map2.
    destruct (nth_error ra y) as [pa|], (nth_error rb y) as [pb|]; try reflexivity.
    + rewrite nth_error_map2.
      destruct (nth_error pa m), (nth_error pb m); reflexivity.
    + destruct (nth_error pa m); reflexivity.
  - destruct (nth_error ra y) as [pa|]; [|reflexivity].
    destruct (nth_error pa m); reflexivity.
Qed.

Lemma get3_frame_at (a : list (list (list (list float)))) (j x y m : nat) :
  get3 (frame_at j a) x y m = get4 a x y j m.
Proof.
  unfold get4, get3, get2, frame_at.
  rewrite nth_error_map.
  destruct (nth_error a x) as [row|]; [|reflexivity]. cbn [option_map].
  rewrite nth_error_map.
  destruct (nth_error row y) as [px|]; [|reflexivity]. cbn [option_map].
  apply nth_error_nth_nil.
Qed.

Lemma get4_where_mask (pixel : Type) (astype_float : pixel -> float)
    (ps : list (list (list (list pixel)))) (mask : list (list Z))
    (x y f m : nat) :
  get4 (where_mask astype_float ps mask) x y f m =
  match get2 mask x y, get4 ps x y f m with
  | Some mv, Some v => Some (masked astype_float mv v)
  | _, _ => None
  end.
Proof.
  unfold get4, get3, get2, where_mask, masked.
  rewrite nth_error_map2.
  destruct (nth_error ps x) as [row|], (nth_error mask x) as [mrow|];
    try reflexivity.
  - rewrite nth_error_map2.
    destruct (nth_error row y) as [px|], (nth_error mrow y) as [mv|];
      try reflexivity.
    rewrite nth_error_map.
    destruct (nth_error px f) as [ms|]; [|reflexivity]. cbn [option_map].
    rewrite nth_error_map. destruct (nth_error ms m); reflexivity.
  - destruct (nth_error mrow y); reflexivity.
Qed.

(** The efficiency formula, entry by entry. *)
Lemma get3_yii_formula (pixel : Type) (astype_float : pixel -> float)
    (ps : list (list (list (list pixel)))) (mask : list (list Z))
    (hi lo x y m : nat) :
  get3 (yii_formula hi lo (where_mask astype_float ps mask)) x y m =
  match get2 mask x y, get4 ps x y hi m, get4 ps x y lo m with
  | Some mv, Some vhi, Some vlo =>
      Some (PrimFloat.div
              (PrimFloat.sub (masked astype_float mv vhi)
                             (masked astype_float mv vlo))
              (masked astype_float mv vhi))
  | _, _, _ => None
  end.
Proof.
  unfold yii_formula.
  rewrite !get3_elementwise, !get3_frame_at, !get4_where_mask.
  destruct (get2 mask x y) as [mv|]; [|reflexivity].
  destruct (get4 ps x y hi m) as [vhi|]; [|reflexivity].
  destruct (get4 ps x y lo m) as [vlo|]; reflexivity.
Qed.

Lemma index_nth_error (k : string) (l : list string) : forall j,
  Str.index k l = Some j -> nth_error l j = Some k.
Proof.
  induction l as [|a l IH]; intros j H; [discriminate|].
  simpl in H. destruct (String.eqb a k) eqn:E.
  - apply String.eqb_eq in E. injection H as <-. now subst.
  - destruct (Str.index k l) as [j'|]; [|discriminate].
    injection H as <-. simpl. now apply IH.
Qed.

Lemma index_existsb (k : string) (l : list string) :
  existsb (String.eqb k) l = true -> exists j, Str.index k l = Some j.
Proof.
  induction l as [|a l IH]; intros H; [discriminate|].
  simpl in *. rewrite String.eqb_sym in H.
  destruct (String.eqb a k); [now exists 0|].
  destruct (IH H) as [j Hj]. exists (S j). now rewrite Hj.
Qed.

Lemma calc_yii_eq (labels : list string) (hi lo : string)
    (da : list (list (list (list float)))) (o : Outputs) :
  _calc_yii labels hi lo da o =
  match Str.index hi labels, Str.index lo labels with
  | Some jhi, Some jlo => (Ok (yii_formula jhi jlo da), o)
  | Some _, None => (Raise (KeyError lo), o)
  | None, _ => (Raise (KeyError hi), o)
  end.
Proof.
  unfold _calc_yii, sel_frame_label, bind, ret, raise.
  destruct (Str.index hi labels); [|reflexivity].
  destruct (Str.index lo labels); reflexivity.
Qed.

(** *** The variant dispatch *)

Section Dispatch.

Variable pixel : Type.
Variable astype_float : pixel -> float.

Lemma map_groups_eq (labels : list string) (hi lo : string) (jhi jlo : nat)
    (a : list (list (list (list float)))) (o : Outputs) :
  Str.index hi labels = Some jhi -> Str.index lo labels = Some jlo ->
  forall idx,
  map_groups (_calc_yii labels hi lo) a idx o
  = (Ok (map (fun i => yii_formula jhi jlo (group i a)) idx), o).
Proof.
  intros Hhi Hlo. induction idx as [|i idx IH]; [reflexivity|].
  cbn [map_groups]. unfold bind at 1. rewrite calc_yii_eq, Hhi, Hlo.
  unfold bind at 1. rewrite IH. reflexivity.
Qed.

Lemma efficiency_dark (ps_da : DataArray pixel) (mask : ndarray) (o : Outputs) :
  is_dark ps_da = true ->
  efficiency astype_float ps_da mask o =
  match Str.index "Fm" (frame_label ps_da), Str.index "F0" (frame_label ps_da) with
  | Some jm, Some j0 =>
      (Ok (Some (yii_formula jm j0
                   (where_mask astype_float (da_values ps_da) (nd_values mask)))), o)
  | Some _, None => (Raise (KeyError "F0"), o)
  | None, _ => (Raise (KeyError "Fm"), o)
  end.
Proof.
  unfold is_dark, efficiency. intros ->.
  unfold bind. rewrite calc_yii_eq.
  destruct (Str.index "Fm" _); [|reflexivity].
  destruct (Str.index "F0" _); reflexivity.
Qed.

Lemma efficiency_light (ps_da : DataArray pixel) (mask : ndarray) (o : Outputs) :
  is_dark ps_da = false -> is_light ps_da = true ->
  efficiency astype_float ps_da mask o =
  if Nat.eqb (length (measurement ps_da)) 0 then
    (Raise (ValueError
       "Failed to group data. Are you grouping by a variable that is all NaN?"), o)
  else
    match Str.index "Fmp" (frame_label ps_da), Str.index "Fp" (frame_label ps_da) with
    | Some jm, Some jp =>
        (Ok (Some (concat_measurement
                     (map (fun i => yii_formula jm jp
                                      (group i (where_mask astype_float
                                                  (da_values ps_da) (nd_values mask))))
                          (seq 0 (length (measurement ps_da)))))), o)
    | Some _, None => (Raise (KeyError "Fp"), o)
    | None, _ => (Raise (KeyError "Fmp"), o)
    end.
Proof.
  unfold is_dark, is_light, efficiency. intros -> ->.
  unfold bind at 1. unfold groupby_map, bind at 1, groupby_measurement.
  destruct (length (measurement ps_da)) as [|n] eqn:En; [reflexivity|].
  cbn [Nat.eqb]. unfold ret at 1.
  destruct (Str.index "Fmp" (frame_label ps_da)) as [jm|] eqn:Hm.
  - destruct (Str.index "Fp" (frame_label ps_da)) as [jp|] eqn:Hp.
    + unfold bind at 1. rewrite (map_groups_eq _ _ _ _ o Hm Hp). reflexivity.
    + cbn [seq map_groups]. unfold bind at 1. unfold bind at 1.
      rewrite calc_yii_eq, Hm, Hp. reflexivity.
  - cbn [seq map_groups]. unfold bind at 1. unfold bind at 1.
    rewrite calc_yii_eq, Hm. reflexivity.
Qed.

Lemma efficiency_unknown (ps_da : DataArray pixel) (mask : ndarray) (o : Outputs) :
  is_dark ps_da = false -> is_light ps_da = false ->
  efficiency astype_float ps_da mask o = (Ok None, o).
Proof. unfold is_dark, is_light, efficiency. intros -> ->. reflexivity. Qed.

Lemma efficiency_state (ps_da : DataArray pixel) (mask : ndarray) (o : Outputs) :
  snd (efficiency astype_float ps_da mask o) = o.
Proof.
  destruct (is_dark ps_da) eqn:Hd.
  - rewrite (efficiency_dark ps_da mask o Hd).
    destruct (Str.index "Fm" _); [|reflexivity].
    destruct (Str.index "F0" _); reflexivity.
  - destruct (is_light ps_da) eqn:Hl.
    + rewrite (efficiency_light ps_da mask o Hd Hl).
      destruct (Nat.eqb _ 0); [reflexivity|].
      destruct (Str.index "Fmp" _); [|reflexivity].
      destruct (Str.index "Fp" _); reflexivity.
    + now rewrite (efficiency_unknown ps_da mask o Hd Hl).
Qed.

(** What a successful call went through. *)
Lemma analyze_yii_ok (ps_da : DataArray pixel) (mask : ndarray)
    (labels : option (list string)) (label : string) (o o' : Outputs)
    (y : YiiArray) (fig : ggplot) :
  analyze_yii astype_float ps_da mask labels label o = (Ok (y, fig), o') ->
  exists yii,
    efficiency astype_float ps_da mask o = (Ok (Some yii), o)
    /\ y = result_array ps_da yii
    /\ last_figure ps_da labels yii = Some fig
    /\ observations o' = observations o ++ recorded ps_da labels label yii
    /\ images o' = images o ++ [y]
    /\ measurement ps_da <> []
    /\ shape_matches ps_da mask = true
    /\ mask_accepted mask = true
    /\ labels_match ps_da labels = true.
Proof.
  rewrite analyze_yii_eq, validate_eq.
  destruct (shape_matches ps_da mask); cbn [negb]; [|discriminate].
  destruct (mask_accepted mask); cbn [negb]; [|discriminate].
  destruct (labels_match ps_da labels); cbn [negb]; [|discriminate].
  pose proof (efficiency_state ps_da mask o) as Hst.
  destruct (efficiency astype_float ps_da mask o) as [[[yii|]|e] o2];
    [|discriminate|discriminate].
  cbn [snd] in Hst. subst o2.
  unfold groupby_measurement.
  destruct (measurement ps_da) as [|m0 ms] eqn:Em; [discriminate|].
  cbn [length Nat.eqb]. unfold ret.
  destruct (last_figure ps_da labels yii) as [fig'|] eqn:Hfig; [|discriminate].
  intros H. injection H as Hy Hf Ho. subst y fig' o'.
  exists yii. cbn [observations images].
  repeat split; trivial. discriminate.
Qed.

End Dispatch.

(** *** Equal frames *)

Lemma Prim2SF_zero : Prim2SF 0%float = S754_zero false.
Proof. vm_compute. reflexivity. Qed.

Lemma Prim2SF_infinity : Prim2SF infinity = S754_infinity false.
Proof. vm_compute. reflexivity. Qed.

Lemma finite_nonzero_spec (f : float) :
  finite_nonzero f = true ->
  exists s m e, Prim2SF f = S754_finite s m e.
Proof.
  unfold finite_nonzero, is_finite, is_nan, is_infinity, is_zero.
  rewrite !eqb_spec, abs_spec, Prim2SF_infinity.
  change (Prim2SF zero) with (Prim2SF 0%float). rewrite Prim2SF_zero.
  destruct (Prim2SF f) as [s|s| |s m e]; simpl; intros H;
    try discriminate.
  - destruct s; discriminate.
  - now exists s, m, e.
Qed.

Lemma sub_self_div (f : float) :
  finite_nonzero f = true ->
  F64.eq0 (PrimFloat.div (PrimFloat.sub f f) f) = true
  /\ F64.isnan (PrimFloat.div (PrimFloat.sub f f) f) = false.
Proof.
  intros Hf. destruct (finite_nonzero_spec f Hf) as (s & m & e & E).
  assert (Hr : Prim2SF (PrimFloat.div (PrimFloat.sub f f) f) = S754_zero (xorb false s)).
  { rewrite div_spec, sub_spec, E. unfold SF64sub, SFsub.
    rewrite Z.sub_diag. reflexivity. }
  unfold F64.eq0, F64.isnan, is_nan. rewrite !eqb_spec, Hr, Prim2SF_zero.
  split; reflexivity.
Qed.

(** *** The dark-adapted efficiency map *)

Lemma dark_values (pixel : Type) (astype_float : pixel -> float)
    (ps_da : DataArray pixel) (mask : ndarray)
    (labels : option (list string)) (label : string) (o o' : Outputs)
    (y : YiiArray) (fig : ggplot) :
  is_dark ps_da = true ->
  analyze_yii astype_float ps_da mask labels label o = (Ok (y, fig), o') ->
  exists jm j0,
    Str.index "Fm" (frame_label ps_da) = Some jm
    /\ Str.index "F0" (frame_label ps_da) = Some j0
    /\ yii_values y
       = yii_formula jm j0
           (where_mask astype_float (da_values ps_da) (nd_values mask)).
Proof.
  intros Hd Hrun.
  destruct (analyze_yii_ok _ _ _ _ _ _ Hrun) as (yii & He & -> & _).
  rewrite (efficiency_dark astype_float ps_da mask o Hd) in He.
  destruct (Str.index "Fm" (frame_label ps_da)) as [jm|]; [|discriminate].
  destruct (Str.index "F0" (frame_label ps_da)) as [j0|]; [|discriminate].
  injection He as <-. now exists jm, j0.
Qed.


Lemma zero_spec (f : float) :
  PrimFloat.is_zero f = true -> exists s, Prim2SF f = S754_zero s.
Proof.
  unfold is_zero. rewrite eqb_spec.
  change (Prim2SF zero) with (Prim2SF 0%float). rewrite Prim2SF_zero.
  destruct (Prim2SF f) as [s|s| |s m e]; simpl; intros H; try discriminate.
  - now exists s.
  - destruct s; discriminate.
  - destruct s; discriminate.
Qed.

Lemma sub_self_div_zero (f : float) :
  PrimFloat.is_zero f = true ->
  F64.isnan (PrimFloat.div (PrimFloat.sub f f) f) = true.
Proof.
  intros Hz. destruct (@zero_spec f Hz) as (s & E).
  assert (Hr : Prim2SF (PrimFloat.div (PrimFloat.sub f f) f) = S754_nan).
  { rewrite div_spec, sub_spec, E. destruct s; reflexivity. }
  unfold F64.isnan, is_nan. rewrite eqb_spec, Hr. reflexivity.
Qed.

(** C7: on a dark-adapted stack, a pixel where the mask is 0 is NaN in the
    returned map at every measurement index: every entry the map has there
    is NaN, and it has one wherever the stack has both frames. *)
Theorem masked_out_pixel_is_nan (pixel : Type) (astype_float : pixel -> float)
    (ps_da : DataArray pixel) (mask : ndarray)
    (labels : option (list string)) (label : string) (o o' : Outputs)
    (y : YiiArray) (fig : ggplot) (x yy : nat) :
  is_dark ps_da = true ->
  analyze_yii astype_float ps_da mask labels label o = (Ok (y, fig), o') ->
  get2 (nd_values mask) x yy = Some 0%Z ->
  (forall m v, get3 (yii_values y) x yy m = Some v -> F64.isnan v = true)
  /\ (forall jm j0 m vm v0,
        Str.index "Fm" (frame_label ps_da) = Some jm ->
        Str.index "F0" (frame_label ps_da) = Some j0 ->
        get4 (da_values ps_da) x yy jm m = Some vm ->
        get4 (da_values ps_da) x yy j0 m = Some v0 ->
        exists v, get3 (yii_values y) x yy m = Some v /\ F64.isnan v = true).
Proof.
  intros Hd Hrun Hmask.
  destruct (@dark_values _ _ _ _ _ _ _ _ _ _ Hd Hrun) as (jm & j0 & Hm & H0 & Hy).
  assert (Hget : forall m,
            get3 (yii_values y) x yy m =
            match get4 (da_values ps_da) x yy jm m,
                  get4 (da_values ps_da) x yy j0 m with
            | Some _, Some _ => Some nan
            | _, _ => None
            end).
  { intros m. rewrite Hy, get3_yii_formula, Hmask.
    destruct (get4 (da_values ps_da) x yy jm m); [|reflexivity].
    destruct (get4 (da_values ps_da) x yy j0 m); reflexivity. }
  split.
  - intros m v. rewrite Hget.
    destruct (get4 (da_values ps_da) x yy jm m); [|discriminate].
    destruct (get4 (da_values ps_da) x yy j0 m); [|discriminate].
    intros H. injection H as <-. reflexivity.
  - intros jm' j0' m vm v0 Hm' H0' Hvm Hv0.
    rewrite Hm in Hm'. rewrite H0 in H0'.
    injection Hm' as <-. injection H0' as <-.
    exists nan. rewrite Hget, Hvm, Hv0. split; reflexivity.
Qed.

(** C7 at pixel (0, 0) of a stack with F0 = 30 and Fm = 120 whose mask
    leaves that pixel out. *)
Lemma masked_out_pixel_is_nan_witness :
  exists v y,
    get3 (yii_values y) 0 0 0 = Some v /\ F64.isnan v = true.
Proof.
  pose (ps := uniform_stack "darkadapted"%string 30 120).
  pose (run := analyze_yii F64.of_Z ps corner_mask None "default"%string empty_outputs).
  pose (y := result_array ps [ [[nan]; [0.75]]; [[0.75]; [0.75]] ]%float).
  pose (fig := figure_of (yii_values y) None (0, "t0"%string)).
  destruct (proj2 (@masked_out_pixel_is_nan Z F64.of_Z ps corner_mask None
                     "default"%string empty_outputs (snd run) y fig 0 0
                     ltac:(vm_compute; reflexivity)
                     ltac:(vm_compute; reflexivity)
                     ltac:(vm_compute; reflexivity))
                  1 0 0 120%Z 30%Z
                  ltac:(vm_compute; reflexivity) ltac:(vm_compute; reflexivity)
                  ltac:(vm_compute; reflexivity) ltac:(vm_compute; reflexivity))
    as (v & Hv & Hn).
  exists v, y. split; assumption.
Defined.

(** C2 (as the code has it): on a dark-adapted stack, where the mask is set
    and the frames "Fm" and "F0" hold the same value, the efficiency is zero
    (and not NaN) when that value is finite and not zero, and it is NaN when
    that value is zero. *)
Theorem equal_frames_efficiency (pixel : Type) (astype_float : pixel -> float)
    (ps_da : DataArray pixel) (mask : ndarray)
    (labels : option (list string)) (label : string) (o o' : Outputs)
    (y : YiiArray) (fig : ggplot) (jm j0 x yy m : nat) (mv : Z) (vm v0 : pixel) :
  is_dark ps_da = true ->
  analyze_yii astype_float ps_da mask labels label o = (Ok (y, fig), o') ->
  Str.index "Fm" (frame_label ps_da) = Some jm ->
  Str.index "F0" (frame_label ps_da) = Some j0 ->
  get2 (nd_values mask) x yy = Some mv -> (0 < mv)%Z ->
  get4 (da_values ps_da) x yy jm m = Some vm ->
  get4 (da_values ps_da) x yy j0 m = Some v0 ->
  astype_float vm = astype_float v0 ->
  exists v,
    get3 (yii_values y) x yy m = Some v
    /\ (finite_nonzero (astype_float vm) = true ->
        F64.eq0 v = true /\ F64.isnan v = false)
    /\ (PrimFloat.is_zero (astype_float vm) = true -> F64.isnan v = true).
Proof.
  intros Hd Hrun Hm H0 Hmask Hpos Hvm Hv0 Heq.
  destruct (@dark_values _ _ _ _ _ _ _ _ _ _ Hd Hrun) as (jm' & j0' & Hm' & H0' & Hy).
  rewrite Hm in Hm'. rewrite H0 in H0'.
  injection Hm' as <-. injection H0' as <-.
  rewrite Hy, get3_yii_formula, Hmask, Hvm, Hv0.
  unfold masked. apply Z.ltb_lt in Hpos. rewrite Hpos, <- Heq.
  eexists. split; [reflexivity|]. split.
  - apply sub_self_div.
  - apply sub_self_div_zero.
Qed.

(** C2 at pixel (0, 1) of a stack whose two frames hold 7 everywhere. *)
Lemma equal_frames_efficiency_witness :
  exists v y,
    get3 (yii_values y) 0 1 0 = Some v
    /\ F64.eq0 v = true /\ F64.isnan v = false.
Proof.
  pose (ps := uniform_stack "darkadapted"%string 7 7).
  pose (run := analyze_yii F64.of_Z ps (uniform_mask 1) None "default"%string
                 empty_outputs).
  pose (y := result_array ps [ [[0]; [0]]; [[0]; [0]] ]%float).
  pose (fig := figure_of (yii_values y) None (0, "t0"%string)).
  destruct (@equal_frames_efficiency Z F64.of_Z ps (uniform_mask 1) None
              "default"%string empty_outputs (snd run) y fig 1 0 0 1 0 1%Z 7%Z 7%Z
              ltac:(vm_compute; reflexivity) ltac:(vm_compute; reflexivity)
              ltac:(vm_compute; reflexivity) ltac:(vm_compute; reflexivity)
              ltac:(vm_compute; reflexivity) ltac:(reflexivity)
              ltac:(vm_compute; reflexivity) ltac:(vm_compute; reflexivity)
              ltac:(reflexivity))
    as (v & Hv & Hz & _).
  exists v, y. split; [exact Hv|].
  apply Hz. vm_compute. reflexivity.
Defined.

(** C2, the claim as worded, fails: with every mask pixel 1 and both frames
    0 at every pixel the call succeeds and the map holds NaN (0/0), not
    zero. *)
Lemma equal_zero_frames_give_nan :
  forallb (Z.eqb 1) (concat (nd_values (uniform_mask 1))) = true
  /\ frame_label (uniform_stack "darkadapted" 0 0) = ["F0"; "Fm"]%string
  /\ map (map (fun frames => nth 1 frames []))
         (da_values (uniform_stack "darkadapted" 0 0))
     = map (map (fun frames => nth 0 frames []))
           (da_values (uniform_stack "darkadapted" 0 0))
  /\ exists y fig o' v,
       analyze_yii F64.of_Z (uniform_stack "darkadapted" 0 0) (uniform_mask 1)
                   None "default" empty_outputs = (Ok (y, fig), o')
       /\ get3 (yii_values y) 0 0 0 = Some v
       /\ F64.isnan v = true /\ F64.eq0 v = false.
Proof.
  split; [reflexivity|]. split; [reflexivity|]. split; [reflexivity|].
  do 4 eexists. split; [vm_compute; reflexivity|].
  split; [vm_compute; reflexivity|]. split; vm_compute; reflexivity.
Qed.

(** *** The loop over the measurements *)

Lemma combine_app (A B : Type) (l1 : list A) : forall (m1 : list B) l2 m2,
  length l1 = length m1 ->
  combine (l1 ++ l2) (m1 ++ m2) = combine l1 m1 ++ combine l2 m2.
Proof.
  induction l1 as [|a l1 IH]; intros [|b m1] l2 m2 H; simpl in *;
    try discriminate; [reflexivity|].
  f_equal. apply IH. now injection H.
Qed.

Lemma enumerate_snoc (A : Type) (l : list A) (x : A) :
  enumerate (l ++ [x]) = enumerate l ++ [(length l, x)].
Proof.
  unfold enumerate. rewrite length_app. simpl length.
  rewrite seq_app. simpl seq.
  apply combine_app. now rewrite length_seq.
Qed.

Lemma enumerate_length (A : Type) (l : list A) :
  length (enumerate l) = length l.
Proof.
  unfold enumerate. rewrite length_combine, length_seq. apply Nat.min_id.
Qed.

Lemma last_figure_eq (pixel : Type) (ps_da : DataArray pixel)
    (labels : option (list string)) (yii : list (list (list float))) :
  measurement ps_da <> [] ->
  last_figure ps_da labels yii
  = Some (figure_of yii labels
            (length (measurement ps_da) - 1, last (measurement ps_da) ""%string)).
Proof.
  intros Hne. unfold last_figure.
  destruct (exists_last Hne) as (l & x & ->).
  rewrite enumerate_snoc, fold_left_app, last_last, length_app.
  simpl. now replace (length l + 1 - 1) with (length l) by lia.
Qed.

Lemma flat_map_length_const (A B : Type) (f : A -> list B) (k : nat) (l : list A) :
  (forall a, length (f a) = k) -> length (flat_map f l) = k * length l.
Proof.
  intros H. induction l as [|a l IH]; simpl; [lia|].
  rewrite length_app, H, IH. lia.
Qed.

Lemma map_flat_map (A B C : Type) (g : B -> C) (f : A -> list B) (l : list A) :
  map g (flat_map f l) = flat_map (fun a => map g (f a)) l.
Proof.
  induction l as [|a l IH]; simpl; [reflexivity|].
  now rewrite map_app, IH.
Qed.

Lemma flat_map_const (A B : Type) (c : list B) (l : list A) :
  flat_map (fun _ => c) l = concat (repeat c (length l)).
Proof.
  induction l as [|a l IH]; simpl; [reflexivity|]. now rewrite IH.
Qed.

(** C8: a successful call on a stack with N measurements appends exactly
    4 * N observations: for every measurement, in order, its median, mode,
    max and histogram observation, named after the measurement's label. *)
Theorem four_observations_per_measurement
    (pixel : Type) (astype_float : pixel -> float)
    (ps_da : DataArray pixel) (mask : ndarray)
    (labels : option (list string)) (label : string) (o o' : Outputs)
    (y : YiiArray) (fig : ggplot) :
  analyze_yii astype_float ps_da mask labels label o = (Ok (y, fig), o') ->
  exists new,
    observations o' = observations o ++ new
    /\ length new = 4 * length (measurement ps_da)
    /\ map obs_trait new
       = concat (repeat traits_per_measurement (length (measurement ps_da)))
    /\ map obs_variable new
       = flat_map (variables_of labels) (enumerate (measurement ps_da)).
Proof.
  intros Hrun.
  destruct (@analyze_yii_ok _ _ _ _ _ _ _ _ _ _ Hrun)
    as (yii & _ & _ & _ & Hobs & _).
  exists (recorded ps_da labels label yii).
  split; [exact Hobs|]. unfold recorded.
  split; [|split].
  - rewrite (@flat_map_length_const _ _ _ 4); [|reflexivity].
    now rewrite enumerate_length.
  - rewrite map_flat_map.
    transitivity (flat_map (fun _ : nat * string => traits_per_measurement)
                           (enumerate (measurement ps_da))).
    + apply flat_map_ext. reflexivity.
    + now rewrite flat_map_const, enumerate_length.
  - rewrite map_flat_map. reflexivity.
Qed.

(** C8 on a stack with one measurement. *)
Lemma four_observations_per_measurement_witness :
  exists new o',
    observations o' = observations empty_outputs ++ new
    /\ length new = 4
    /\ map obs_variable new
       = ["yii_median_t0"; "yii_mode_t0"; "yii_max_t0"; "yii_hist_t0"]%string.
Proof.
  pose (ps := uniform_stack "darkadapted"%string 1 2).
  pose (run := analyze_yii F64.of_Z ps (uniform_mask 255) None "default"%string
                 empty_outputs).
  pose (y := result_array ps [ [[0.5]; [0.5]]; [[0.5]; [0.5]] ]%float).
  pose (fig := figure_of (yii_values y) None (0, "t0"%string)).
  destruct (@four_observations_per_measurement Z F64.of_Z ps (uniform_mask 255)
              None "default"%string empty_outputs (snd run) y fig
              ltac:(vm_compute; reflexivity))
    as (new & Hobs & Hlen & _ & Hvar).
  exists new, (snd run). split; [exact Hobs|]. split; [exact Hlen|exact Hvar].
Defined.

(** C9: a successful call returns one figure, and it is the figure built in
    the last iteration of the loop: the histogram of the last measurement
    index, under that measurement's label. *)
Theorem returns_last_figure
    (pixel : Type) (astype_float : pixel -> float)
    (ps_da : DataArray pixel) (mask : ndarray)
    (labels : option (list string)) (label : string) (o o' : Outputs)
    (y : YiiArray) (fig : ggplot) :
  analyze_yii astype_float ps_da mask labels label o = (Ok (y, fig), o') ->
  let n := length (measurement ps_da) in
  n <> 0
  /\ fig = snd (_create_histogram
                  (isel_measurement (n - 1) (yii_values y))
                  (resolve_label labels (n - 1)
                     (last (measurement ps_da) ""%string))).
Proof.
  intros Hrun n.
  destruct (@analyze_yii_ok _ _ _ _ _ _ _ _ _ _ Hrun)
    as (yii & _ & -> & Hfig & _ & _ & Hne & _).
  split.
  - unfold n. destruct (measurement ps_da); [congruence|discriminate].
  - rewrite (last_figure_eq ps_da labels yii Hne) in Hfig.
    injection Hfig as <-. reflexivity.
Qed.

(** C9 on a stack with the two measurements "t0" (efficiency 0.5) and "t1"
    (efficiency 0.75): the figure returned is the one of "t1". *)
Lemma returns_last_figure_witness :
  exists fig,
    fig_title fig = "measurement: t1"%string
    /\ fig_peak_bin fig = 0.75%float
    /\ nonzero_bins (Plant_Pixels (fig_data fig)) = [(75, 1)].
Proof.
  pose (run := analyze_yii F64.of_Z two_measurement_stack mask_1x1 None
                 "default"%string empty_outputs).
  pose (y := result_array two_measurement_stack [ [[0.5; 0.75]] ]%float).
  pose (fig := figure_of (yii_values y) None (1, "t1"%string)).
  destruct (@returns_last_figure Z F64.of_Z two_measurement_stack mask_1x1 None
              "default"%string empty_outputs (snd run) y fig
              ltac:(vm_compute; reflexivity))
    as (_ & Hfig).
  exists fig. rewrite Hfig. vm_compute. repeat split.
Defined.

(** *** Failures *)

(** C3, on the code: with a variant tag that is neither "darkadapted" nor
    "lightadapted" (in any letter case) and a mask that passes the checks,
    no efficiency map is computed and nothing is recorded, but the call does
    not return: reading the unassigned local [yii] raises
    UnboundLocalError. *)
Theorem unknown_variant_raises
    (pixel : Type) (astype_float : pixel -> float)
    (ps_da : DataArray pixel) (mask : ndarray)
    (labels : option (list string)) (label : string) (o : Outputs) :
  is_dark ps_da = false -> is_light ps_da = false ->
  shape_matches ps_da mask = true ->
  mask_accepted mask = true ->
  labels_match ps_da labels = true ->
  efficiency astype_float ps_da mask o = (Ok None, o)
  /\ analyze_yii astype_float ps_da mask labels label o
     = (Raise (UnboundLocalError "yii"), o).
Proof.
  intros Hd Hl Hs Hm Hlab.
  pose proof (efficiency_unknown astype_float ps_da mask o Hd Hl) as He.
  split; [exact He|].
  rewrite analyze_yii_eq, validate_eq, Hs, Hm, Hlab. cbn [negb].
  now rewrite He.
Qed.

(** C3 on a stack tagged "chlorophyll". *)
Lemma unknown_variant_raises_witness :
  analyze_yii F64.of_Z (uniform_stack "chlorophyll" 1 2) (uniform_mask 255)
              None "default" empty_outputs
  = (Raise (UnboundLocalError "yii"), empty_outputs).
Proof.
  exact (proj2 (@unknown_variant_raises Z F64.of_Z
                  (uniform_stack "chlorophyll" 1 2) (uniform_mask 255)
                  None "default"%string empty_outputs
                  eq_refl eq_refl eq_refl eq_refl eq_refl)).
Defined.

(** C4 (as the code has it): a mask of the stack's shape with more than two
    distinct values, or with a dtype other than uint8, makes the call fail
    with the binarity error whatever the stack holds, and nothing is
    recorded. *)
Theorem nonbinary_mask_is_fatal
    (pixel : Type) (astype_float : pixel -> float)
    (ps_da : DataArray pixel) (mask : ndarray)
    (labels : option (list string)) (label : string) (o : Outputs) :
  shape_matches ps_da mask = true ->
  2 < length (unique mask) \/ dtype mask <> "uint8"%string ->
  analyze_yii astype_float ps_da mask labels label o
  = (Raise (FatalError "Mask must have dtype uint8 and be binary"), o).
Proof.
  intros Hs Hbad.
  assert (Hm : mask_accepted mask = false).
  { unfold mask_accepted. apply andb_false_iff.
    destruct Hbad as [Hn|Hd].
    - left. apply Nat.leb_gt. exact Hn.
    - right. now apply String.eqb_neq. }
  now rewrite analyze_yii_eq, validate_eq, Hs, Hm.
Qed.

(** C4 on a mask with the three values 0, 128 and 255. *)
Lemma nonbinary_mask_is_fatal_witness :
  analyze_yii F64.of_Z (uniform_stack "darkadapted" 1 2) mask_three_values
              None "default" empty_outputs
  = (Raise (FatalError "Mask must have dtype uint8 and be binary"), empty_outputs).
Proof.
  apply (@nonbinary_mask_is_fatal Z F64.of_Z (uniform_stack "darkadapted" 1 2)
           mask_three_values None "default"%string empty_outputs).
  - reflexivity.
  - left. vm_compute. lia.
Defined.

(** C4, the claim as worded, fails: a uint8 mask whose two distinct values
    are 5 and 7 passes the check, and the call succeeds. *)
Lemma mask_5_7_is_accepted :
  unique mask_5_7 = [5; 7]%Z
  /\ exists y fig o',
       analyze_yii F64.of_Z (uniform_stack "darkadapted" 1 2) mask_5_7
                   None "default" empty_outputs = (Ok (y, fig), o').
Proof.
  split; [reflexivity|]. do 3 eexists. vm_compute. reflexivity.
Qed.

Lemma groupby_measurement_ok (n : nat) (o : Outputs) :
  n <> 0 -> groupby_measurement n o = (Ok tt, o).
Proof.
  intros H. unfold groupby_measurement. destruct n; [congruence|reflexivity].
Qed.

Lemma efficiency_ok (pixel : Type) (astype_float : pixel -> float)
    (ps_da : DataArray pixel) (mask : ndarray) (o : Outputs) :
  is_dark ps_da || is_light ps_da = true ->
  has_frames ps_da = true ->
  measurement ps_da <> [] ->
  exists yii, efficiency astype_float ps_da mask o = (Ok (Some yii), o).
Proof.
  intros Hvar Hfr Hne. unfold has_frames in Hfr.
  destruct (is_dark ps_da) eqn:Hd.
  - apply andb_prop in Hfr as [Hm H0].
    destruct (index_existsb _ _ Hm) as [jm Ejm].
    destruct (index_existsb _ _ H0) as [j0 Ej0].
    rewrite (efficiency_dark astype_float ps_da mask o Hd), Ejm, Ej0.
    eexists. reflexivity.
  - cbn [orb] in Hvar.
    apply andb_prop in Hfr as [Hm Hp].
    destruct (index_existsb _ _ Hm) as [jm Ejm].
    destruct (index_existsb _ _ Hp) as [jp Ejp].
    rewrite (efficiency_light astype_float ps_da mask o Hd Hvar), Ejm, Ejp.
    destruct (measurement ps_da); [congruence|].
    eexists. reflexivity.
Qed.

(** Under the conditions below the call returns. *)
Lemma analyze_yii_returns (pixel : Type) (astype_float : pixel -> float)
    (ps_da : DataArray pixel) (mask : ndarray)
    (labels : option (list string)) (label : string) (o : Outputs) :
  is_dark ps_da || is_light ps_da = true ->
  shape_matches ps_da mask = true ->
  mask_accepted mask = true ->
  labels_match ps_da labels = true ->
  has_frames ps_da = true ->
  measurement ps_da <> [] ->
  exists y fig o',
    analyze_yii astype_float ps_da mask labels label o = (Ok (y, fig), o').
Proof.
  intros Hvar Hs Hm Hlab Hfr Hne.
  destruct (efficiency_ok astype_float ps_da mask o Hvar Hfr Hne) as [yii He].
  rewrite analyze_yii_eq, validate_eq, Hs, Hm, Hlab. cbn [negb].
  rewrite He, groupby_measurement_ok, (last_figure_eq ps_da labels yii Hne).
  - do 3 eexists. reflexivity.
  - destruct (measurement ps_da); [congruence|discriminate].
Qed.

(** C5 (as the code has it): the call returns when the variant tag is
    recognised, the mask has the stack's shape, is uint8 with at most two
    distinct values, the labels (when given) are as many as the
    measurements, the stack has the two frames its variant's formula
    selects, and there is at least one measurement; and whenever the mask's
    shape differs from the stack's row/column extent the call fails with the
    shape error, which names the expected shape, and records nothing. *)
Theorem analyze_yii_returns_or_shape_error :
  (forall (pixel : Type) (astype_float : pixel -> float)
          (ps_da : DataArray pixel) (mask : ndarray)
          (labels : option (list string)) (label : string) (o : Outputs),
      is_dark ps_da || is_light ps_da = true ->
      shape_matches ps_da mask = true ->
      mask_accepted mask = true ->
      labels_match ps_da labels = true ->
      has_frames ps_da = true ->
      measurement ps_da <> [] ->
      exists y fig o',
        analyze_yii astype_float ps_da mask labels label o = (Ok (y, fig), o'))
  /\ (forall (pixel : Type) (astype_float : pixel -> float)
             (ps_da : DataArray pixel) (mask : ndarray)
             (labels : option (list string)) (label : string) (o : Outputs),
        shape_matches ps_da mask = false ->
        analyze_yii astype_float ps_da mask labels label o
        = (Raise (FatalError ("Mask needs to have shape "
                              ++ Str.of_shape (shape2 (da_values ps_da)))), o)).
Proof.
  split.
  - intros pixel astype_float ps_da mask labels label o.
    apply analyze_yii_returns.
  - intros pixel astype_float ps_da mask labels label o Hs.
    now rewrite analyze_yii_eq, validate_eq, Hs.
Qed.

(** C5 on the stack with F0 = 1 and Fm = 2: it returns under a 2x2 mask and
    fails, naming the shape (2, 2), under a 1x2 mask. *)
Lemma analyze_yii_returns_or_shape_error_witness :
  (exists y fig o',
     analyze_yii F64.of_Z (uniform_stack "darkadapted" 1 2) (uniform_mask 255)
                 None "default" empty_outputs = (Ok (y, fig), o'))
  /\ analyze_yii F64.of_Z (uniform_stack "darkadapted" 1 2) mask_1x2
                 None "default" empty_outputs
     = (Raise (FatalError "Mask needs to have shape (2, 2)"), empty_outputs).
Proof.
  split.
  - apply (proj1 analyze_yii_returns_or_shape_error Z F64.of_Z
             (uniform_stack "darkadapted" 1 2) (uniform_mask 255)
             None "default"%string empty_outputs);
      solve [reflexivity | discriminate].
  - apply (proj2 analyze_yii_returns_or_shape_error Z F64.of_Z
             (uniform_stack "darkadapted" 1 2) mask_1x2
             None "default"%string empty_outputs).
    reflexivity.
Defined.

(** C5, the claim as worded, fails: a stack tagged "lightadapted" whose
    frames are "F0" and "Fm", under a uint8 mask of its shape that is 255
    everywhere, passes every check and then fails on the missing frame
    "Fmp"; and a dark-adapted stack without any measurement fails too. *)
Lemma valid_input_still_raises :
  (is_light (uniform_stack "lightadapted" 1 2) = true
   /\ shape2 (nd_values (uniform_mask 255))
      = shape2 (da_values (uniform_stack "lightadapted" 1 2))
   /\ dtype (uniform_mask 255) = "uint8"%string
   /\ unique (uniform_mask 255) = [255%Z]
   /\ analyze_yii F64.of_Z (uniform_stack "lightadapted" 1 2) (uniform_mask 255)
                  None "default" empty_outputs
      = (Raise (KeyError "Fmp"), empty_outputs))
  /\ (is_dark no_measurement_stack = true
      /\ shape2 (nd_values (uniform_mask 255))
         = shape2 (da_values no_measurement_stack)
      /\ exists e o',
           analyze_yii F64.of_Z no_measurement_stack (uniform_mask 255)
                       None "default" empty_outputs = (Raise e, o')).
Proof.
  split.
  - repeat split.
  - split; [reflexivity|]. split; [reflexivity|]. do 2 eexists. reflexivity.
Qed.

(** *** The dark-adapted formula *)

(** C1: on a dark-adapted stack that passes the checks and has the frames
    "Fm" and "F0" and a measurement, the call returns; and the map a call
    returns is [(Fm - F0) / Fm], entry by entry, on the masked float-cast
    values of the frames labelled "Fm" and "F0" (it has an entry exactly
    where the mask and both frames have one).  On the 2x2x2x1 stack with F0 = 1 and Fm = 2 under a mask that is
    set everywhere, the map is 0.5 at every pixel and the median, mode and
    max observations are 0.5. *)
Theorem analyze_yii_dark_formula :
  (forall (pixel : Type) (astype_float : pixel -> float)
          (ps_da : DataArray pixel) (mask : ndarray)
          (labels : option (list string)) (label : string) (o : Outputs),
      is_dark ps_da = true ->
      shape_matches ps_da mask = true ->
      mask_accepted mask = true ->
      labels_match ps_da labels = true ->
      has_frames ps_da = true ->
      measurement ps_da <> [] ->
      exists y fig o',
        analyze_yii astype_float ps_da mask labels label o = (Ok (y, fig), o'))
  /\ (forall (pixel : Type) (astype_float : pixel -> float)
          (ps_da : DataArray pixel) (mask : ndarray)
          (labels : option (list string)) (label : string) (o o' : Outputs)
          (y : YiiArray) (fig : ggplot),
      is_dark ps_da = true ->
      analyze_yii astype_float ps_da mask labels label o = (Ok (y, fig), o') ->
      exists jm j0,
        nth_error (frame_label ps_da) jm = Some "Fm"%string
        /\ nth_error (frame_label ps_da) j0 = Some "F0"%string
        /\ forall x yy m,
             get3 (yii_values y) x yy m =
             match get2 (nd_values mask) x yy,
                   get4 (da_values ps_da) x yy jm m,
                   get4 (da_values ps_da) x yy j0 m with
             | Some mv, Some vm, Some v0 =>
                 Some (PrimFloat.div
                         (PrimFloat.sub (masked astype_float mv vm)
                                        (masked astype_float mv v0))
                         (masked astype_float mv vm))
             | _, _, _ => None
             end)
  /\ (exists y fig o',
        analyze_yii F64.of_Z (uniform_stack "darkadapted" 1 2) (uniform_mask 255)
                    None "default" empty_outputs = (Ok (y, fig), o')
        /\ yii_values y = [ [[0.5]; [0.5]]; [[0.5]; [0.5]] ]%float
        /\ map obs_pair (firstn 3 (observations o'))
           = [ ("yii_median_t0"%string, VFloat 0.5);
               ("yii_mode_t0"%string, VFloat 0.5);
               ("yii_max_t0"%string, VFloat 0.5) ]).
Proof.
  split; [|split].
  - intros pixel astype_float ps_da mask labels label o Hd.
    apply analyze_yii_returns. now rewrite Hd.
  - intros pixel astype_float ps_da mask labels label o o' y fig Hd Hrun.
    destruct (@dark_values _ _ _ _ _ _ _ _ _ _ Hd Hrun) as (jm & j0 & Hm & H0 & Hy).
    exists jm, j0. repeat split.
    + now apply index_nth_error.
    + now apply index_nth_error.
    + intros x yy m. rewrite Hy. apply get3_yii_formula.
  - do 3 eexists. split; [vm_compute; reflexivity|].
    split; vm_compute; reflexivity.
Qed.

(** The formula of C1 read at pixel (1, 0) of a one-measurement stack with
    F0 = 30 and Fm = 120. *)
Lemma analyze_yii_dark_formula_witness :
  exists y jm j0,
    nth_error (frame_label (uniform_stack "DarkAdapted"%string 30 120)) jm = Some "Fm"%string
    /\ nth_error (frame_label (uniform_stack "DarkAdapted"%string 30 120)) j0 = Some "F0"%string
    /\ get3 (yii_values y) 1 0 0 = Some 0.75%float.
Proof.
  destruct (proj1 (proj2 analyze_yii_dark_formula) Z F64.of_Z
              (uniform_stack "DarkAdapted"%string 30 120) (uniform_mask 1)
              None "default"%string empty_outputs
              (snd (analyze_yii F64.of_Z (uniform_stack "DarkAdapted"%string 30 120)
                      (uniform_mask 1) None "default"%string empty_outputs))
              (result_array (uniform_stack "DarkAdapted"%string 30 120)
                 [ [[0.75]; [0.75]]; [[0.75]; [0.75]] ]%float)
              (figure_of [ [[0.75]; [0.75]]; [[0.75]; [0.75]] ]%float
                         None (0, "t0"%string))
              ltac:(vm_compute; reflexivity) ltac:(vm_compute; reflexivity))
    as (jm & j0 & Hm & H0 & Hy).
  exists (result_array (uniform_stack "DarkAdapted"%string 30 120)
            [ [[0.75]; [0.75]]; [[0.75]; [0.75]] ]%float), jm, j0.
  split; [exact Hm|]. split; [exact H0|].
  vm_compute. reflexivity.
Defined.

(** ** The ENVI writer *)

(** *** [os.path.splitext] *)

Lemma mem_char_get (c : ascii) (s : string) :
  mem_char c s = false <-> forall j, String.get j s <> Some c.
Proof.
  induction s as [|a s IH]; simpl.
  - split; [intros _ [|j]; discriminate|reflexivity].
  - rewrite orb_false_iff, IH. split.
    + intros [Ha Hs] [|j]; simpl.
      * apply Ascii.eqb_neq in Ha. congruence.
      * apply Hs.
    + intros H. split.
      * apply Ascii.eqb_neq. intros ->. now apply (H 0).
      * intros j. apply (H (S j)).
Qed.

Lemma rfind_from_spec (c : ascii) (s : string) : forall i : Z,
  (0 <= i)%Z ->
  (Envi.rfind_from c s i = -1 /\ mem_char c s = false)%Z
  \/ exists k : nat,
       Envi.rfind_from c s i = (i + Z.of_nat k)%Z
       /\ String.get k s = Some c
       /\ mem_char c (substring (S k) (String.length s - S k) s) = false.
Proof.
  induction s as [|a s IH]; intros i Hi; simpl.
  - left. split; reflexivity.
  - destruct (@IH (i + 1)%Z ltac:(lia)) as [[Hr Hm]|(k & Hr & Hg & Hm)].
    + rewrite Hr. simpl. destruct (Ascii.eqb a c) eqn:E.
      * right. exists 0. apply Ascii.eqb_eq in E. subst a.
        repeat split; [lia|].
        rewrite Nat.sub_0_r.
        replace (substring 0 (String.length s) s) with s; [exact Hm|].
        clear. induction s as [|b s IH]; simpl; [reflexivity|]. now rewrite <- IH.
      * left. split; [reflexivity|]. simpl. assumption.
    + rewrite Hr. destruct (i + 1 + Z.of_nat k =? -1)%Z eqn:E; [lia|].
      right. exists (S k). repeat split; [lia|exact Hg|exact Hm].
Qed.

Lemma substring_all (s : string) : substring 0 (String.length s) s = s.
Proof. induction s as [|a s IH]; simpl; [reflexivity|]. now rewrite IH. Qed.

Lemma slice_split (p : string) : forall n,
  n <= String.length p ->
  (Envi.slice_to n p ++ Envi.slice_from n p)%string = p.
Proof.
  unfold Envi.slice_to, Envi.slice_from.
  induction p as [|a p IH]; intros n Hn.
  - destruct n; reflexivity.
  - destruct n as [|n]; simpl.
    + now rewrite substring_all.
    + f_equal. apply IH. simpl in Hn. lia.
Qed.

Lemma slice_from_get (p : string) (c : ascii) : forall n,
  String.get n p = Some c ->
  Envi.slice_from n p
  = String c (substring (S n) (String.length p - S n) p).
Proof.
  unfold Envi.slice_from.
  induction p as [|a p IH]; intros n Hg; [destruct n; discriminate|].
  destruct n as [|n]; simpl in *.
  - injection Hg as ->. rewrite Nat.sub_0_r. reflexivity.
  - now apply IH.
Qed.

Lemma get_lt_length (p : string) : forall n c,
  String.get n p = Some c -> n < String.length p.
Proof.
  induction p as [|a p IH]; intros [|n] c H; simpl in *; try discriminate; [lia|].
  apply IH in H. lia.
Qed.

Lemma mem_char_substring (c : ascii) (s : string) : forall n m,
  mem_char c s = false -> mem_char c (substring n m s) = false.
Proof.
  induction s as [|a s IH]; intros n m H.
  - destruct n, m; reflexivity.
  - simpl in H. apply orb_false_iff in H as [Ha Hs].
    destruct n as [|n], m as [|m]; simpl; try reflexivity.
    + rewrite Ha. simpl. now apply IH.
    + now apply IH.
    + now apply IH.
Qed.

Lemma substring_substring_tail (n : nat) : forall (s : string) (k : nat),
  substring k (String.length (substring n (String.length s - n) s) - k)
            (substring n (String.length s - n) s)
  = substring (n + k) (String.length s - (n + k)) s.
Proof.
  induction n as [|n IH]; intros s k.
  - rewrite Nat.sub_0_r, substring_all. reflexivity.
  - destruct s as [|a s]; [destruct k; reflexivity|]. simpl. apply IH.
Qed.

Lemma append_nil_r (s : string) : (s ++ "")%string = s.
Proof. induction s as [|a s IH]; simpl; [reflexivity|]. now rewrite IH. Qed.

(** X: [os.path.splitext] cuts the file name without losing anything: root
    and extension put together are the name again, and the extension is
    either empty or one dot followed by characters that are neither a dot
    nor a slash. *)
Theorem splitext_round_trip (p : string) :
  (fst (Envi.splitext p) ++ snd (Envi.splitext p))%string = p
  /\ (snd (Envi.splitext p) = EmptyString
      \/ exists e,
           snd (Envi.splitext p) = String "."%char e
           /\ mem_char "."%char e = false
           /\ mem_char "/"%char e = false).
Proof.
  unfold Envi.splitext.
  destruct (Envi.rfind "/" p <? Envi.rfind "." p)%Z eqn:Hlt;
    [|cbn [fst snd]; rewrite append_nil_r; auto].
  destruct (Envi.has_name p _ _); cbn [fst snd];
    [|rewrite append_nil_r; auto].
  apply Z.ltb_lt in Hlt. unfold Envi.rfind in *.
  destruct (@rfind_from_spec "."%char p 0%Z ltac:(lia)) as [[Hd _]|(d & Hd & Hgd & Hmd)];
    [destruct (@rfind_from_spec "/"%char p 0%Z ltac:(lia)) as [[Hs _]|(k & Hs & _)]; lia|].
  rewrite Hd in *. simpl Z.add in *. rewrite Nat2Z.id.
  split.
  - apply slice_split. apply get_lt_length in Hgd. lia.
  - right. exists (substring (S d) (String.length p - S d) p).
    split; [now apply slice_from_get|]. split; [exact Hmd|].
    destruct (@rfind_from_spec "/"%char p 0%Z ltac:(lia)) as [[_ Hm]|(k & Hs & _ & Hmk)].
    + now apply mem_char_substring.
    + rewrite Hs in Hlt. simpl Z.add in Hlt.
      assert (Hkd : S k <= S d) by lia.
      replace (S d) with (S k + (S d - S k)) by lia.
      rewrite <- substring_substring_tail.
      now apply mem_char_substring.
Qed.

(** *** The files [write_data] leaves *)

Lemma append_assoc (a b c : string) :
  ((a ++ b) ++ c)%string = (a ++ (b ++ c))%string.
Proof. induction a as [|x a IH]; simpl; [reflexivity|]. now rewrite IH. Qed.

Lemma append_inj_l (s a b : string) :
  (s ++ a)%string = (s ++ b)%string -> a = b.
Proof. induction s as [|x s IH]; simpl; intros H; [exact H|]. injection H. exact IH. Qed.

Lemma write_spec (p s : string) (fs : Envi.FS) (q : string) :
  Envi.write p s fs q =
  if String.eqb q p
  then Some (Envi.Text (match fs p with
                        | Some (Envi.Text t) => t ++ s
                        | _ => s
                        end)%string)
  else fs q.
Proof.
  unfold Envi.write, Envi.fs_set.
  destruct (fs p) as [[t|b]|]; reflexivity.
Qed.

Lemma write_all_spec (p : string) (ss : list string) :
  forall (fs : Envi.FS) (t : string),
  fs p = Some (Envi.Text t) ->
  forall q,
    Envi.write_all p ss fs q =
    if String.eqb q p then Some (Envi.Text (t ++ text_of ss)%string) else fs q.
Proof.
  unfold Envi.write_all.
  induction ss as [|s ss IH]; intros fs t Hp q; simpl.
  - rewrite append_nil_r. destruct (String.eqb q p) eqn:E; [|reflexivity].
    apply String.eqb_eq in E. now subst.
  - rewrite (IH (Envi.write p s fs) (t ++ s)%string).
    + rewrite append_assoc, write_spec.
      destruct (String.eqb q p); reflexivity.
    + rewrite write_spec, String.eqb_refl, Hp. reflexivity.
Qed.

Lemma text_of_app (l1 l2 : list string) :
  text_of (l1 ++ l2) = (text_of l1 ++ text_of l2)%string.
Proof.
  unfold text_of. induction l1 as [|s l1 IH]; simpl; [reflexivity|].
  now rewrite IH, append_assoc.
Qed.

Lemma last_cons (A : Type) (l : list A) : forall (x d : A),
  last (x :: l) d = last l x.
Proof.
  induction l as [|y l IH]; intros x d; [reflexivity|].
  change (last (x :: y :: l) d) with (last (y :: l) d).
  rewrite (IH y d). symmetry. apply (IH y x).
Qed.

(** The loop over all wavelengths but the last, followed by the last one,
    writes the wavelengths joined by a comma and a newline. *)
Lemma join_removelast (K : Type) (str_key : K -> string) (sep : string)
    (ks : list K) : forall k0 : K,
  (text_of (map (fun wl => str_key wl ++ sep) (removelast (k0 :: ks)))
   ++ str_key (last ks k0))%string
  = String.concat sep (map str_key (k0 :: ks)).
Proof.
  induction ks as [|k1 ks IH]; intros k0; [reflexivity|].
  change (removelast (k0 :: k1 :: ks)) with (k0 :: removelast (k1 :: ks)).
  rewrite (last_cons ks k1 k0).
  change (String.concat sep (map str_key (k0 :: k1 :: ks)))
    with (str_key k0 ++ sep ++ String.concat sep (map str_key (k1 :: ks)))%string.
  rewrite <- IH.
  cbn [map text_of fold_right]. rewrite !append_assoc. reflexivity.
Qed.

Lemma holds_open (path : string) (fs : Envi.FS) :
  holds_text (Envi.open_w path fs) path "" fs.
Proof. intros q. reflexivity. Qed.

Lemma holds_write_all (path t : string) (ss : list string) (fs' fs : Envi.FS) :
  holds_text fs' path t fs ->
  holds_text (Envi.write_all path ss fs') path (t ++ text_of ss) fs.
Proof.
  intros H q.
  rewrite (@write_all_spec path ss fs' t);
    [|rewrite (H path), String.eqb_refl; reflexivity].
  rewrite (H q). destruct (String.eqb q path); reflexivity.
Qed.

Lemma holds_write (path t s : string) (fs' fs : Envi.FS) :
  holds_text fs' path t fs ->
  holds_text (Envi.write path s fs') path (t ++ s) fs.
Proof.
  intros H q. rewrite write_spec, (H path), String.eqb_refl, (H q).
  destruct (String.eqb q path); reflexivity.
Qed.

Lemma hdr_raw_differ (filename : string) : hdr_path filename <> raw_path filename.
Proof.
  unfold hdr_path, raw_path. intros H. apply append_inj_l in H. discriminate H.
Qed.

Lemma write_bytes_open (path : string) (b : list Byte.byte) (fs : Envi.FS)
    (q : string) :
  Envi.write_bytes path b (Envi.open_wb path fs) q =
  if String.eqb q path then Some (Envi.Binary b) else fs q.
Proof.
  unfold Envi.write_bytes, Envi.open_wb, Envi.fs_set.
  rewrite String.eqb_refl. cbn [app].
  destruct (String.eqb q path); reflexivity.
Qed.

Section WriteDataFacts.

Variables E K V B : Type.
Variable tobytes1 : E -> list Byte.byte.
Variable str_key : K -> string.
Variable str_bands : B -> string.
Variable version : string.

(** The outcome and the file system of a call, case by case. *)
Lemma write_data_cases (filename : string) (sd : Envi.Spectral_data E K V B)
    (fs : Envi.FS) :
  let r := Envi.write_data tobytes1 str_key str_bands version filename sd fs in
  let '(lines, samples, bands) := Envi.shape3 (Envi.array_data sd) in
  match Envi.dict_get (Envi.dtype_char sd) Envi.dtype_dict with
  | None =>
      fst r = Envi.Raises (Envi.KeyError (Envi.dtype_char sd))
      /\ holds_text (snd r) (hdr_path filename)
           (text_of (Envi.header_head version lines samples bands)) fs
  | Some code =>
      match Envi.wavelength_dict sd with
      | [] =>
          fst r = Envi.Raises (Envi.IndexError "list index out of range")
          /\ holds_text (snd r) (hdr_path filename)
               (text_of (Envi.header_head version lines samples bands)
                ++ text_of (Envi.header_body str_bands code sd)) fs
      | _ :: _ =>
          fst r = Envi.Returns true
          /\ forall q,
               snd r q =
               if String.eqb q (raw_path filename)
               then Some (Envi.Binary (Envi.tobytes_bil tobytes1 (Envi.array_data sd)))
               else if String.eqb q (hdr_path filename)
                    then Some (Envi.Text (envi_header str_key str_bands version code sd))
                    else fs q
      end
  end.
Proof.
  unfold Envi.write_data, envi_header.
  fold (hdr_path filename). fold (raw_path filename).
  destruct (Envi.shape3 (Envi.array_data sd)) as [[lines samples] bands].
  pose proof (holds_write_all (Envi.header_head version lines samples bands)
                (holds_open (hdr_path filename) fs)) as H1.
  cbn [String.append] in H1.
  destruct (Envi.dict_get (Envi.dtype_char sd) Envi.dtype_dict) as [code|];
    [|split; [reflexivity|exact H1]].
  pose proof (holds_write_all (Envi.header_body str_bands code sd) H1) as H2.
  destruct (Envi.wavelength_dict sd) as [|[k0 v0] kvs] eqn:Ew.
  - cbn [map removelast Envi.write_all fold_left]. split; [reflexivity|exact H2].
  - cbn [map fst]. split; [reflexivity|].
    pose proof (holds_write_all
                  (map (fun wl => (str_key wl ++ "," ++ Envi.nl)%string)
                       (removelast (k0 :: map fst kvs))) H2) as H3.
    pose proof (holds_write (str_key (last (map fst kvs) k0) ++ Envi.nl)%string H3) as H4.
    pose proof (holds_write "}"%string H4) as H5.
    intros q. cbn [snd]. rewrite write_bytes_open.
    destruct (String.eqb q (raw_path filename)) eqn:Eq; [reflexivity|].
    rewrite (H5 q).
    destruct (String.eqb q (hdr_path filename)); [|reflexivity].
    do 2 f_equal. rewrite !append_assoc. do 2 f_equal.
    change (str_key k0 :: map str_key (map fst kvs))
      with (map str_key (k0 :: map fst kvs)).
    rewrite <- (@join_removelast K str_key ("," ++ Envi.nl)%string (map fst kvs) k0).
    rewrite !append_assoc. reflexivity.
Qed.

End WriteDataFacts.

(** X: with a dtype character of the table and at least one wavelength the
    call returns True, the header file holds the ten header fields followed
    by the wavelengths, one per line, separated by commas and closed by a
    brace, and the raw file holds the array's bytes in band-interleaved
    order. *)
Theorem write_data_success (E K V B : Type) (tobytes1 : E -> list Byte.byte)
    (str_key : K -> string) (str_bands : B -> string) (version : string)
    (filename : string) (sd : Envi.Spectral_data E K V B) (fs : Envi.FS)
    (code : string) :
  Envi.dict_get (Envi.dtype_char sd) Envi.dtype_dict = Some code ->
  Envi.wavelength_dict sd <> [] ->
  let r := Envi.write_data tobytes1 str_key str_bands version filename sd fs in
  fst r = Envi.Returns true
  /\ snd r (hdr_path filename)
     = Some (Envi.Text (envi_header str_key str_bands version code sd))
  /\ snd r (raw_path filename)
     = Some (Envi.Binary (Envi.tobytes_bil tobytes1 (Envi.array_data sd))).
Proof.
  intros Hc Hw r.
  pose proof (write_data_cases tobytes1 str_key str_bands version filename sd fs) as H.
  cbv zeta in H. fold r in H.
  destruct (Envi.shape3 (Envi.array_data sd)) as [[lines samples] bands].
  rewrite Hc in H.
  destruct (Envi.wavelength_dict sd) as [|kv kvs]; [congruence|].
  destruct H as [Hr Hfs]. split; [exact Hr|]. split.
  - rewrite Hfs, String.eqb_refl.
    destruct (String.eqb (hdr_path filename) (raw_path filename)) eqn:Eqb;
      [|reflexivity].
    apply String.eqb_eq in Eqb. now apply hdr_raw_differ in Eqb.
  - now rewrite Hfs, String.eqb_refl.
Qed.

(** The header and the raw bytes of a 2x2x3 cube of bytes. *)
Lemma write_data_success_witness :
  let r := write_cube "out/img.dat" (cube_2x2x3 "B" [(400, 0); (500, 1); (600, 2)])
             empty_fs in
  fst r = Envi.Returns true
  /\ snd r "out/img.hdr"%string
     = Some (Envi.Text
               ("ENVI" ++ Envi.nl
                ++ "; this file was created using PlantCV version 4.0" ++ Envi.nl
                ++ "interleave = bil" ++ Envi.nl
                ++ "samples = 2" ++ Envi.nl
                ++ "lines = 2" ++ Envi.nl
                ++ "bands = 3" ++ Envi.nl
                ++ "data type = 1" ++ Envi.nl
                ++ "wavelength units = nm" ++ Envi.nl
                ++ "default bands =[1, 2]" ++ Envi.nl
                ++ "wavelength = {" ++ Envi.nl
                ++ "400," ++ Envi.nl ++ "500," ++ Envi.nl ++ "600" ++ Envi.nl
                ++ "}"))%string
  /\ snd r "out/img.raw"%string
     = Some (Envi.Binary
               (concat (map uint8_bytes [1; 4; 2; 5; 3; 6; 7; 10; 8; 11; 9; 12]))).
Proof.
  exact (@write_data_success nat nat nat string uint8_bytes Str.of_nat
           (fun s => s) "4.0"%string "out/img.dat"%string
           (cube_2x2x3 "B" [(400, 0); (500, 1); (600, 2)]) empty_fs "1"%string
           eq_refl ltac:(discriminate)).
Defined.

(** X: whatever the outcome, the call writes to no file other than
    [root.hdr] and [root.raw], where [root] is the file name without its
    extension. *)
Theorem write_data_touches_two_files (E K V B : Type)
    (tobytes1 : E -> list Byte.byte)
    (str_key : K -> string) (str_bands : B -> string) (version : string)
    (filename : string) (sd : Envi.Spectral_data E K V B) (fs : Envi.FS)
    (q : string) :
  q <> hdr_path filename -> q <> raw_path filename ->
  snd (Envi.write_data tobytes1 str_key str_bands version filename sd fs) q = fs q.
Proof.
  intros Hh Hr.
  apply String.eqb_neq in Hh. apply String.eqb_neq in Hr.
  pose proof (write_data_cases tobytes1 str_key str_bands version filename sd fs) as H.
  cbv zeta in H.
  destruct (Envi.shape3 (Envi.array_data sd)) as [[lines samples] bands].
  destruct (Envi.dict_get (Envi.dtype_char sd) Envi.dtype_dict) as [code|].
  - destruct (Envi.wavelength_dict sd) as [|kv kvs].
    + destruct H as [_ H]. now rewrite (H q), Hh.
    + destruct H as [_ H]. now rewrite (H q), Hr, Hh.
  - destruct H as [_ H]. now rewrite (H q), Hh.
Qed.

(** A file that is already there is left alone. *)
Lemma write_data_touches_two_files_witness :
  snd (write_cube "out/img.dat" (cube_2x2x3 "B" [(400, 0)])
         (Envi.fs_set "out/img.dat" (Envi.Text "keep") empty_fs))
      "out/img.dat"%string
  = Some (Envi.Text "keep").
Proof.
  exact (@write_data_touches_two_files nat nat nat string uint8_bytes Str.of_nat
           (fun s => s) "4.0"%string "out/img.dat"%string
           (cube_2x2x3 "B" [(400, 0)])
           (Envi.fs_set "out/img.dat" (Envi.Text "keep") empty_fs)
           "out/img.dat"%string
           ltac:(discriminate) ltac:(discriminate)).
Defined.

(** X: a dtype character without an entry in the table (float16 'e', bool
    '?', int64 'q', ...) is a KeyError raised in the middle of the header:
    the header file is left with its first six lines only, and the raw file
    is not written. *)
Theorem write_data_unknown_dtype (E K V B : Type)
    (tobytes1 : E -> list Byte.byte)
    (str_key : K -> string) (str_bands : B -> string) (version : string)
    (filename : string) (sd : Envi.Spectral_data E K V B) (fs : Envi.FS) :
  supported (Envi.dtype_char sd) = false ->
  let r := Envi.write_data tobytes1 str_key str_bands version filename sd fs in
  let '(lines, samples, bands) := Envi.shape3 (Envi.array_data sd) in
  fst r = Envi.Raises (Envi.KeyError (Envi.dtype_char sd))
  /\ snd r (hdr_path filename)
     = Some (Envi.Text
               ("ENVI" ++ Envi.nl
                ++ "; this file was created using PlantCV version "
                ++ version ++ Envi.nl
                ++ "interleave = bil" ++ Envi.nl
                ++ "samples = " ++ Str.of_nat samples ++ Envi.nl
                ++ "lines = " ++ Str.of_nat lines ++ Envi.nl
                ++ "bands = " ++ Str.of_nat bands ++ Envi.nl))%string
  /\ snd r (raw_path filename) = fs (raw_path filename).
Proof.
  intros Hs r.
  pose proof (write_data_cases tobytes1 str_key str_bands version filename sd fs) as H.
  cbv zeta in H. fold r in H.
  destruct (Envi.shape3 (Envi.array_data sd)) as [[lines samples] bands].
  assert (Hd : Envi.dict_get (Envi.dtype_char sd) Envi.dtype_dict = None).
  { unfold supported in Hs. revert Hs. generalize (Envi.dtype_char sd) as c.
    intros c. unfold Envi.dtype_dict. cbn [map fst existsb Envi.dict_get].
    rewrite !(String.eqb_sym c).
    repeat (destruct (String.eqb _ c); [discriminate|]). reflexivity. }
  rewrite Hd in H. destruct H as [Hr Hfs].
  split; [exact Hr|]. split.
  - rewrite (Hfs (hdr_path filename)), String.eqb_refl.
    do 2 f_equal. unfold text_of, Envi.header_head. cbn [fold_right].
    rewrite !append_assoc, append_nil_r. reflexivity.
  - rewrite (Hfs (raw_path filename)).
    destruct (String.eqb (raw_path filename) (hdr_path filename)) eqn:Eqb;
      [|reflexivity].
    apply String.eqb_eq in Eqb. symmetry in Eqb. now apply hdr_raw_differ in Eqb.
Qed.

(** A float16 cube ('e'). *)
Lemma write_data_unknown_dtype_witness :
  let r := write_cube "img" (cube_2x2x3 "e" [(400, 0)]) empty_fs in
  fst r = Envi.Raises (Envi.KeyError "e")
  /\ snd r "img.hdr"%string
     = Some (Envi.Text
               ("ENVI" ++ Envi.nl
                ++ "; this file was created using PlantCV version 4.0" ++ Envi.nl
                ++ "interleave = bil" ++ Envi.nl
                ++ "samples = 2" ++ Envi.nl
                ++ "lines = 2" ++ Envi.nl
                ++ "bands = 3" ++ Envi.nl))%string
  /\ snd r "img.raw"%string = None.
Proof.
  exact (@write_data_unknown_dtype nat nat nat string uint8_bytes Str.of_nat
           (fun s => s) "4.0"%string "img"%string
           (cube_2x2x3 "e" [(400, 0)]) empty_fs eq_refl).
Defined.

(** X: with an empty wavelength dictionary the call raises IndexError after
    the line that opens the wavelength list: the header is left unclosed and
    the raw file is not written. *)
Theorem write_data_no_wavelength (E K V B : Type)
    (tobytes1 : E -> list Byte.byte)
    (str_key : K -> string) (str_bands : B -> string) (version : string)
    (filename : string) (sd : Envi.Spectral_data E K V B) (fs : Envi.FS)
    (code : string) :
  Envi.dict_get (Envi.dtype_char sd) Envi.dtype_dict = Some code ->
  Envi.wavelength_dict sd = [] ->
  let r := Envi.write_data tobytes1 str_key str_bands version filename sd fs in
  let '(lines, samples, bands) := Envi.shape3 (Envi.array_data sd) in
  fst r = Envi.Raises (Envi.IndexError "list index out of range")
  /\ snd r (hdr_path filename)
     = Some (Envi.Text
               (text_of (Envi.header_head version lines samples bands)
                ++ "data type = " ++ code ++ Envi.nl
                ++ "wavelength units = " ++ Envi.wavelength_units sd ++ Envi.nl
                ++ "default bands =" ++ str_bands (Envi.default_bands sd) ++ Envi.nl
                ++ "wavelength = {" ++ Envi.nl))%string
  /\ snd r (raw_path filename) = fs (raw_path filename).
Proof.
  intros Hc Hw r.
  pose proof (write_data_cases tobytes1 str_key str_bands version filename sd fs) as H.
  cbv zeta in H. fold r in H.
  destruct (Envi.shape3 (Envi.array_data sd)) as [[lines samples] bands].
  rewrite Hc, Hw in H. destruct H as [Hr Hfs].
  split; [exact Hr|]. split.
  - rewrite (Hfs (hdr_path filename)), String.eqb_refl.
    do 3 f_equal. unfold text_of, Envi.header_body. cbn [fold_right].
    rewrite !append_assoc, append_nil_r. reflexivity.
  - rewrite (Hfs (raw_path filename)).
    destruct (String.eqb (raw_path filename) (hdr_path filename)) eqn:Eqb;
      [|reflexivity].
    apply String.eqb_eq in Eqb. symmetry in Eqb. now apply hdr_raw_differ in Eqb.
Qed.

(** A cube without wavelengths. *)
Lemma write_data_no_wavelength_witness :
  let r := write_cube "img.raw" (cube_2x2x3 "B" []) empty_fs in
  fst r = Envi.Raises (Envi.IndexError "list index out of range")
  /\ snd r "img.raw"%string = None.
Proof.
  pose proof (@write_data_no_wavelength nat nat nat string uint8_bytes Str.of_nat
                (fun s => s) "4.0"%string "img.raw"%string
                (cube_2x2x3 "B" []) empty_fs "1"%string eq_refl eq_refl) as H.
  cbv zeta in H. cbn [Envi.shape3 cube_2x2x3 Envi.array_data length hd] in H.
  destruct H as (Hr & _ & Hraw). split; [exact Hr|exact Hraw].
Defined.

(** *** The band-interleaved layout of the raw file *)

Lemma transpose_cons (A : Type) (row r2 : list A) (rest : list (list A)) :
  Envi.transpose (row :: r2 :: rest)
  = map2 cons row (Envi.transpose (r2 :: rest)).
Proof. reflexivity. Qed.

Lemma length_map2 (A B C : Type) (f : A -> B -> C) (l1 : list A) (l2 : list B) :
  length (map2 f l1 l2) = Nat.min (length l1) (length l2).
Proof. unfold map2. now rewrite length_map, length_combine. Qed.

Lemma transpose_length (A : Type) (m : list (list A)) : forall r c,
  rect2 m (S r) c -> length (Envi.transpose m) = c.
Proof.
  induction m as [|row rest IH]; intros r c [Hl Hf]; [discriminate|].
  inversion Hf as [|? ? Hrow Hrest]; subst.
  destruct rest as [|r2 rest].
  - simpl. now rewrite length_map.
  - rewrite transpose_cons, length_map2.
    rewrite (IH (length rest) (length row)); [apply Nat.min_id|].
    split; [reflexivity|exact Hrest].
Qed.

Lemma get2_transpose (A : Type) (m : list (list A)) : forall r c b s,
  rect2 m (S r) c ->
  get2 (Envi.transpose m) b s = get2 m s b.
Proof.
  induction m as [|row rest IH]; intros r c b s [Hl Hf]; [discriminate|].
  inversion Hf as [|? ? Hrow Hrest]; subst.
  destruct rest as [|r2 rest].
  - unfold get2. cbn [Envi.transpose]. rewrite nth_error_map.
    destruct s as [|s]; cbn [nth_error].
    + destruct (nth_error row b); reflexivity.
    + destruct (nth_error row b); cbn [option_map];
        destruct s; reflexivity.
  - rewrite transpose_cons. unfold get2 at 1. rewrite nth_error_map2.
    assert (Hr : rect2 (r2 :: rest) (S (length rest)) (length row))
      by (split; [reflexivity|exact Hrest]).
    pose proof (transpose_length Hr) as HlT.
    pose proof (IH (length rest) (length row) b) as IHb.
    destruct (nth_error row b) as [x|] eqn:Ex.
    + destruct (nth_error (Envi.transpose (r2 :: rest)) b) as [col|] eqn:Ec.
      * destruct s as [|s]; [unfold get2; cbn [nth_error]; now rewrite Ex|].
        cbn [nth_error]. specialize (IHb s Hr). unfold get2 in IHb.
        rewrite Ec in IHb. unfold get2. exact IHb.
      * apply nth_error_None in Ec.
        assert (b < length row) by (apply nth_error_Some; congruence). lia.
    + destruct s as [|s]; [unfold get2; cbn [nth_error]; now rewrite Ex|].
      specialize (IHb s Hr). unfold get2 in IHb |- *. cbn [nth_error].
      rewrite <- IHb.
      apply nth_error_None in Ex.
      assert (Hn : nth_error (Envi.transpose (r2 :: rest)) b = None)
        by (apply nth_error_None; lia).
      now rewrite Hn.
Qed.

Lemma transpose_rows (A : Type) (m : list (list A)) : forall r c,
  rect2 m r c -> Forall (fun col => length col = r) (Envi.transpose m).
Proof.
  induction m as [|row rest IH]; intros r c [Hl Hf]; [constructor|].
  inversion Hf as [|? ? Hrow Hrest]; subst.
  destruct rest as [|r2 rest].
  - simpl. apply Forall_forall. intros col Hin.
    apply in_map_iff in Hin as (x & <- & _). reflexivity.
  - rewrite transpose_cons.
    specialize (IH (length (r2 :: rest)) (length row) (conj eq_refl Hrest)).
    apply Forall_forall. intros col Hin. unfold map2 in Hin.
    apply in_map_iff in Hin as ([x t] & <- & Hin).
    apply in_combine_r in Hin. rewrite Forall_forall in IH.
    cbn [fst snd length]. now rewrite (IH t Hin).
Qed.

Lemma concat_uniform_length (A : Type) (n : nat) (ll : list (list A)) :
  Forall (fun l => length l = n) ll -> length (concat ll) = length ll * n.
Proof.
  induction 1 as [|l ll Hl _ IH]; [reflexivity|].
  simpl. rewrite length_app, IH, Hl. reflexivity.
Qed.

Lemma concat_uniform_nth (A : Type) (n : nat) (ll : list (list A)) :
  Forall (fun l => length l = n) ll ->
  forall i j, j < n -> nth_error (concat ll) (i * n + j) = get2 ll i j.
Proof.
  induction 1 as [|l ll Hl _ IH]; intros i j Hj.
  - unfold get2. destruct (i * n + j), i; reflexivity.
  - destruct i as [|i]; simpl concat.
    + unfold get2. cbn [nth_error Nat.mul Nat.add].
      apply nth_error_app1. lia.
    + unfold get2. cbn [nth_error].
      rewrite nth_error_app2 by (rewrite Hl; simpl; lia).
      replace (S i * n + j - length l) with (i * n + j) by (rewrite Hl; simpl; lia).
      apply IH. exact Hj.
Qed.

Lemma elements_bil_layout (E : Type) (a : list (list (list E))) (L S B : nat) :
  rect3 a L S B ->
  length (Envi.elements_bil a) = L * B * S
  /\ forall l s b, s < S -> b < B ->
       nth_error (Envi.elements_bil a) ((l * B + b) * S + s) = get3 a l s b.
Proof.
  intros [HL Hf]. unfold Envi.elements_bil.
  destruct S as [|S'].
  - split; [|intros l s b Hs; lia].
    assert (Hnil : concat (map (@Envi.transpose E) a) = []).
    { clear HL. induction Hf as [|line a [Hl _] _ IH]; [reflexivity|].
      simpl. apply length_zero_iff_nil in Hl. subst line. exact IH. }
    rewrite Hnil. simpl. lia.
  - assert (Hrows : Forall (fun t => length t = B) (map (@Envi.transpose E) a)).
    { apply Forall_map. eapply Forall_impl; [|exact Hf].
      intros line Hline. exact (transpose_length Hline). }
    assert (Hcols : Forall (fun col => length col = S S')
                           (concat (map (@Envi.transpose E) a))).
    { apply Forall_concat. apply Forall_map. eapply Forall_impl; [|exact Hf].
      intros line Hline. exact (transpose_rows Hline). }
    split.
    + rewrite (concat_uniform_length Hcols), (concat_uniform_length Hrows),
        length_map, HL. reflexivity.
    + intros l s b Hs Hb.
      rewrite (concat_uniform_nth Hcols _ Hs). unfold get2 at 1.
      rewrite (concat_uniform_nth Hrows _ Hb). unfold get2 at 1.
      rewrite nth_error_map. unfold get3, get2.
      destruct (nth_error a l) as [line|] eqn:El; [|reflexivity].
      cbn [option_map].
      rewrite Forall_forall in Hf.
      pose proof (Hf line (nth_error_In _ _ El)) as Hline.
      pose proof (get2_transpose b s Hline) as Ht. unfold get2 in Ht.
      exact Ht.
Qed.

Lemma concat_map_block (A : Type) (f : A -> list Byte.byte) (k : nat)
    (xs : list A) :
  (forall e, length (f e) = k) ->
  length (concat (map f xs)) = length xs * k
  /\ forall i e, nth_error xs i = Some e ->
       firstn k (skipn (i * k) (concat (map f xs))) = f e.
Proof.
  intros Hk. induction xs as [|x xs [IHl IHn]]; split.
  - reflexivity.
  - intros [|i] e H; discriminate.
  - simpl. now rewrite length_app, Hk, IHl.
  - intros [|i] e H; simpl in *.
    + injection H as <-.
      rewrite firstn_app, <- (Hk x), firstn_all, Nat.sub_diag. simpl.
      now rewrite app_nil_r.
    + rewrite skipn_app, (Hk x).
      replace (k + i * k - k) with (i * k) by lia.
      rewrite skipn_all2 by (rewrite Hk; lia). simpl. now apply IHn.
Qed.

Lemma rect3_get3_bounds (A : Type) (a : list (list (list A))) (L S B : nat)
    (l s b : nat) (e : A) :
  rect3 a L S B -> get3 a l s b = Some e -> l < L /\ s < S /\ b < B.
Proof.
  intros [HL Hf] Hg. unfold get3, get2 in Hg.
  destruct (nth_error a l) as [line|] eqn:El; [|discriminate].
  destruct (nth_error line s) as [px|] eqn:Es; [|discriminate].
  rewrite Forall_forall in Hf.
  destruct (Hf line (nth_error_In _ _ El)) as [Hls Hpx].
  rewrite Forall_forall in Hpx.
  pose proof (Hpx px (nth_error_In _ _ Es)) as Hb.
  repeat split.
  - rewrite <- HL. apply nth_error_Some. congruence.
  - rewrite <- Hls. apply nth_error_Some. congruence.
  - rewrite <- Hb. apply nth_error_Some. congruence.
Qed.

(** X: the raw file is laid out as the header announces ("interleave =
    bil"): for an array of L lines, S samples and B bands whose elements
    take [k] bytes each, a successful call leaves L * S * B * k bytes in the
    raw file, and the bytes of element (l, s, b) stand at byte offset
    ((l * B + b) * S + s) * k. *)
Theorem raw_file_is_band_interleaved (E K V B' : Type)
    (tobytes1 : E -> list Byte.byte)
    (str_key : K -> string) (str_bands : B' -> string) (version : string)
    (filename : string) (sd : Envi.Spectral_data E K V B') (fs : Envi.FS)
    (L S B k : nat) :
  rect3 (Envi.array_data sd) L S B ->
  (forall e, length (tobytes1 e) = k) ->
  fst (Envi.write_data tobytes1 str_key str_bands version filename sd fs)
  = Envi.Returns true ->
  exists bytes,
    snd (Envi.write_data tobytes1 str_key str_bands version filename sd fs)
        (raw_path filename) = Some (Envi.Binary bytes)
    /\ length bytes = L * S * B * k
    /\ forall l s b e,
         get3 (Envi.array_data sd) l s b = Some e ->
         firstn k (skipn (((l * B + b) * S + s) * k) bytes) = tobytes1 e.
Proof.
  intros Hrect Hk Hret.
  pose proof (write_data_cases tobytes1 str_key str_bands version filename sd fs) as H.
  cbv zeta in H.
  destruct (Envi.shape3 (Envi.array_data sd)) as [[lines samples] bands].
  destruct (Envi.dict_get (Envi.dtype_char sd) Envi.dtype_dict) as [code|];
    [|destruct H as [H _]; congruence].
  destruct (Envi.wavelength_dict sd) as [|kv kvs];
    [destruct H as [H _]; congruence|].
  destruct H as [_ Hfs].
  exists (Envi.tobytes_bil tobytes1 (Envi.array_data sd)).
  split; [now rewrite Hfs, String.eqb_refl|].
  destruct (elements_bil_layout Hrect) as [Hlen Hnth].
  destruct (concat_map_block tobytes1 (Envi.elements_bil (Envi.array_data sd)) Hk)
    as [Hbl Hbn].
  unfold Envi.tobytes_bil. split.
  - rewrite Hbl, Hlen. lia.
  - intros l s b e Hg.
    destruct (rect3_get3_bounds _ _ _ Hrect Hg) as (_ & Hs & Hb).
    apply Hbn. rewrite Hnth by assumption. exact Hg.
Qed.

(** The 2x2x3 cube of bytes: 12 bytes, and element (1, 0, 2), which is 9,
    at offset (1 * 3 + 2) * 2 + 0 = 10. *)
Lemma raw_file_is_band_interleaved_witness :
  exists bytes,
    snd (write_cube "img" (cube_2x2x3 "B" [(400, 0)]) empty_fs) "img.raw"%string
    = Some (Envi.Binary bytes)
    /\ length bytes = 12
    /\ firstn 1 (skipn 10 bytes) = uint8_bytes 9.
Proof.
  destruct (@raw_file_is_band_interleaved nat nat nat string uint8_bytes
              Str.of_nat (fun s => s) "4.0"%string "img"%string
              (cube_2x2x3 "B" [(400, 0)]) empty_fs 2 2 3 1)
    as (bytes & Hraw & Hlen & Hat).
  - split; [reflexivity|]. repeat constructor.
  - intros e. reflexivity.
  - reflexivity.
  - exists bytes. split; [exact Hraw|]. split; [exact Hlen|].
    exact (Hat 1 0 2 9 eq_refl).
Defined.

(** X: the files are opened for writing, not for appending: what [root.hdr]
    and [root.raw] held before has no influence, and a second call with the
    same arguments ends as the first one did and leaves the file system as
    the first one left it. *)
Theorem write_data_overwrites (E K V B : Type)
    (tobytes1 : E -> list Byte.byte)
    (str_key : K -> string) (str_bands : B -> string) (version : string)
    (filename : string) (sd : Envi.Spectral_data E K V B) (fs fs' : Envi.FS) :
  let wd := Envi.write_data tobytes1 str_key str_bands version filename sd in
  fst (wd fs') = fst (wd fs)
  /\ snd (wd fs') (hdr_path filename) = snd (wd fs) (hdr_path filename)
  /\ (fst (wd fs) = Envi.Returns true ->
      snd (wd fs') (raw_path filename) = snd (wd fs) (raw_path filename))
  /\ forall q, snd (wd (snd (wd fs))) q = snd (wd fs) q.
Proof.
  intros wd. unfold wd.
  pose proof (write_data_cases tobytes1 str_key str_bands version filename sd fs) as H1.
  pose proof (write_data_cases tobytes1 str_key str_bands version filename sd fs') as H2.
  pose proof (write_data_cases tobytes1 str_key str_bands version filename sd
                (snd (wd fs))) as H3.
  unfold wd in H3. cbv zeta in H1, H2, H3.
  destruct (Envi.shape3 (Envi.array_data sd)) as [[lines samples] bands].
  assert (Hne : String.eqb (hdr_path filename) (raw_path filename) = false)
    by (apply String.eqb_neq, hdr_raw_differ).
  destruct (Envi.dict_get (Envi.dtype_char sd) Envi.dtype_dict) as [code|].
  - destruct (Envi.wavelength_dict sd) as [|kv kvs].
    + destruct H1 as [R1 F1], H2 as [R2 F2], H3 as [R3 F3].
      split; [congruence|]. split.
      * now rewrite (F1 (hdr_path filename)), (F2 (hdr_path filename)), String.eqb_refl.
      * split; [rewrite R1; discriminate|].
        intros q. rewrite (F3 q), (F1 q).
        destruct (String.eqb q (hdr_path filename)); reflexivity.
    + destruct H1 as [R1 F1], H2 as [R2 F2], H3 as [R3 F3].
      split; [congruence|]. split.
      * now rewrite (F1 (hdr_path filename)), (F2 (hdr_path filename)), Hne,
          String.eqb_refl.
      * split.
        -- intros _. now rewrite (F1 (raw_path filename)), (F2 (raw_path filename)),
             String.eqb_refl.
        -- intros q. rewrite (F3 q), (F1 q).
           destruct (String.eqb q (raw_path filename)); [reflexivity|].
           destruct (String.eqb q (hdr_path filename)); reflexivity.
  - destruct H1 as [R1 F1], H2 as [R2 F2], H3 as [R3 F3].
    split; [congruence|]. split.
    + now rewrite (F1 (hdr_path filename)), (F2 (hdr_path filename)), String.eqb_refl.
    + split.
      * rewrite R1. discriminate.
      * intros q. rewrite (F3 q), (F1 q).
        destruct (String.eqb q (hdr_path filename)); reflexivity.
Qed.

(** *** A given extension is replaced *)

Lemma rfind_from_none (c : ascii) (s : string) : forall i,
  mem_char c s = false -> Envi.rfind_from c s i = (-1)%Z.
Proof.
  induction s as [|a s IH]; intros i H; [reflexivity|].
  simpl in *. apply orb_false_iff in H as [Ha Hs].
  now rewrite (IH (i + 1)%Z Hs), Ha.
Qed.

Lemma rfind_from_app (c : ascii) (s1 s2 : string) : forall i,
  Envi.rfind_from c (s1 ++ s2) i =
  let r2 := Envi.rfind_from c s2 (i + Z.of_nat (String.length s1)) in
  if (r2 =? -1)%Z then Envi.rfind_from c s1 i else r2.
Proof.
  induction s1 as [|a s1 IH]; intros i; cbv zeta.
  - simpl. rewrite Z.add_0_r.
    destruct (Envi.rfind_from c s2 i =? -1)%Z eqn:E; [|reflexivity].
    now apply Z.eqb_eq in E.
  - cbn [String.append Envi.rfind_from String.length]. rewrite IH. cbv zeta.
    replace (i + 1 + Z.of_nat (String.length s1))%Z
      with (i + Z.of_nat (S (String.length s1)))%Z by lia.
    destruct (Envi.rfind_from c s2 (i + Z.of_nat (S (String.length s1))) =? -1)%Z
      eqn:E; [reflexivity|].
    now rewrite E.
Qed.

Lemma rfind_from_range (c : ascii) (s : string) : forall i,
  (0 <= i)%Z ->
  (Envi.rfind_from c s i = -1
   \/ i <= Envi.rfind_from c s i < i + Z.of_nat (String.length s))%Z.
Proof.
  intros i Hi.
  destruct (@rfind_from_spec c s i Hi) as [[H _]|(k & H & Hg & _)]; [now left|].
  right. apply get_lt_length in Hg. lia.
Qed.

Lemma substring_app_l (s1 s2 : string) : forall i n,
  i + n <= String.length s1 ->
  substring i n (s1 ++ s2) = substring i n s1.
Proof.
  induction s1 as [|a s1 IH]; intros i n H; simpl in H.
  - assert (i = 0) by lia. assert (n = 0) by lia. subst.
    destruct s2; reflexivity.
  - destruct i as [|i]; cbn [String.append substring].
    + destruct n as [|n]; [reflexivity|]. f_equal. apply IH. simpl. lia.
    + apply IH. lia.
Qed.

Lemma slice_to_app (s1 s2 : string) :
  Envi.slice_to (String.length s1) (s1 ++ s2) = s1.
Proof.
  unfold Envi.slice_to. rewrite substring_app_l by lia. apply substring_all.
Qed.

Lemma length_append (s1 s2 : string) :
  String.length (s1 ++ s2) = String.length s1 + String.length s2.
Proof. induction s1 as [|a s1 IH]; simpl; [reflexivity|]. now rewrite IH. Qed.

Lemma slice_from_app (s1 s2 : string) :
  Envi.slice_from (String.length s1) (s1 ++ s2) = s2.
Proof.
  unfold Envi.slice_from. rewrite length_append.
  replace (String.length s1 + String.length s2 - String.length s1)
    with (String.length s2) by lia.
  induction s1 as [|a s1 IH]; simpl; [apply substring_all|exact IH].
Qed.

Lemma has_name_substring (p : string) : forall n i,
  i + n <= String.length p ->
  Envi.has_name p i n = has_non_dot (substring i n p).
Proof.
  assert (Hone : forall p i, i < String.length p ->
            exists c, substring i 1 p = String c EmptyString
                      /\ forall n, substring i (S n) p = String c (substring (S i) n p)).
  { clear. induction p as [|a p IH]; intros i Hi; simpl in Hi; [lia|].
    destruct i as [|i].
    - exists a. split; [simpl; now destruct p|]. reflexivity.
    - destruct (IH i ltac:(lia)) as (c & H1 & H2). exists c.
      split; [exact H1|]. intros n. apply H2. }
  induction n as [|n IH]; intros i Hi.
  - simpl. clear. revert i. induction p as [|a p IHp]; intros [|i]; simpl; auto.
  - cbn [Envi.has_name].
    destruct (Hone p i ltac:(lia)) as (c & H1 & H2).
    rewrite H1, (H2 n). cbn [has_non_dot].
    rewrite (IH (S i)) by lia.
    assert (Hc : String.eqb (String c EmptyString) "." = Ascii.eqb c ".")
      by (simpl; destruct (Ascii.eqb c "."); reflexivity).
    rewrite Hc. destruct (Ascii.eqb c "."); reflexivity.
Qed.

(** What [splitext] does with [root.e]. *)
Lemma splitext_append (root e : string) :
  has_non_dot (basename root) = true ->
  mem_char "." e = false -> mem_char "/" e = false ->
  Envi.splitext (root ++ String "." e) = (root, String "."%char e).
Proof.
  intros Hname Hdot Hsep.
  unfold Envi.splitext, Envi.rfind.
  rewrite !rfind_from_app. cbv zeta. rewrite !Z.add_0_l.
  assert (Hd : Envi.rfind_from "." (String "." e) (Z.of_nat (String.length root))
               = Z.of_nat (String.length root)).
  { cbn [Envi.rfind_from]. rewrite (@rfind_from_none "."%char e _ Hdot). reflexivity. }
  assert (Hs : Envi.rfind_from "/" (String "." e) (Z.of_nat (String.length root))
               = (-1)%Z).
  { apply rfind_from_none. simpl. exact Hsep. }
  rewrite Hd, Hs, Z.eqb_refl.
  destruct (Z.of_nat (String.length root) =? -1)%Z eqn:E; [lia|]. clear E.
  pose proof (@rfind_from_range "/" root 0%Z ltac:(lia)) as Hr.
  assert (Hlt : (Envi.rfind_from "/" root 0 <? Z.of_nat (String.length root))%Z = true)
    by (apply Z.ltb_lt; lia).
  rewrite Hlt, Nat2Z.id.
  rewrite has_name_substring.
  - rewrite substring_app_l by lia.
    unfold basename, Envi.slice_from, Envi.rfind in Hname. rewrite Hname.
    now rewrite slice_to_app, slice_from_app.
  - rewrite length_append. simpl. lia.
Qed.

(** X: an extension given with the file name is replaced, not kept: when the
    last component of [root] has a character other than a dot and [e] holds
    neither a dot nor a slash, a call with the name [root.e] writes
    [root.hdr] and [root.raw], as a call with the name [root] does when that
    last component has no dot. *)
Theorem given_extension_is_replaced (root e : string) :
  has_non_dot (basename root) = true ->
  mem_char "." e = false -> mem_char "/" e = false ->
  hdr_path (root ++ String "." e) = (root ++ ".hdr")%string
  /\ raw_path (root ++ String "." e) = (root ++ ".raw")%string
  /\ (mem_char "." (basename root) = false ->
      hdr_path root = (root ++ ".hdr")%string
      /\ raw_path root = (root ++ ".raw")%string).
Proof.
  intros Hname Hdot Hsep. unfold hdr_path, raw_path.
  rewrite (splitext_append root e Hname Hdot Hsep). cbn [fst].
  split; [reflexivity|]. split; [reflexivity|].
  intros Hnodot.
  assert (Hsplit : Envi.splitext root = (root, EmptyString)).
  { unfold Envi.splitext.
    destruct (Envi.rfind "/" root <? Envi.rfind "." root)%Z eqn:Hlt; [|reflexivity].
    exfalso. apply Z.ltb_lt in Hlt. unfold Envi.rfind in *.
    destruct (@rfind_from_spec "."%char root 0%Z ltac:(lia))
      as [[Hd _]|(d & Hd & Hgd & _)].
    - pose proof (@rfind_from_range "/" root 0%Z ltac:(lia)). lia.
    - rewrite Hd in Hlt. simpl Z.add in Hlt.
      apply mem_char_get with (j := d - Z.to_nat (Envi.rfind_from "/" root 0 + 1))
        in Hnodot.
      apply Hnodot. unfold basename, Envi.rfind, Envi.slice_from.
      rewrite substring_correct1.
      + rewrite <- Hgd. f_equal.
        pose proof (@rfind_from_range "/" root 0%Z ltac:(lia)). lia.
      + apply get_lt_length in Hgd.
        pose proof (@rfind_from_range "/" root 0%Z ltac:(lia)). lia. }
  now rewrite Hsplit.
Qed.

(** The names "out.d/img.dat" and "out.d/img". *)
Lemma given_extension_is_replaced_witness :
  hdr_path "out.d/img.dat" = "out.d/img.hdr"%string
  /\ raw_path "out.d/img.dat" = "out.d/img.raw"%string
  /\ hdr_path "out.d/img" = "out.d/img.hdr"%string
  /\ raw_path "out.d/img" = "out.d/img.raw"%string.
Proof.
  destruct (@given_extension_is_replaced "out.d/img" "dat" eq_refl eq_refl eq_refl)
    as (H1 & H2 & H3).
  destruct (H3 eq_refl) as [H4 H5].
  repeat split; assumption.
Defined.

(** ** More on the analyzer *)

(** *** Failures record nothing *)

Lemma efficiency_raises (pixel : Type) (astype_float : pixel -> float)
    (ps_da : DataArray pixel) (mask : ndarray) (o o' : Outputs) (e : exn) :
  efficiency astype_float ps_da mask o = (Raise e, o') ->
  (exists k, e = KeyError k) \/ (exists m, e = ValueError m).
Proof.
  destruct (is_dark ps_da) eqn:Hd.
  - rewrite (efficiency_dark astype_float ps_da mask o Hd).
    destruct (Str.index "Fm" _); [destruct (Str.index "F0" _)|];
      intros H; inversion H; eauto.
  - destruct (is_light ps_da) eqn:Hl.
    + rewrite (efficiency_light astype_float ps_da mask o Hd Hl).
      destruct (Nat.eqb _ 0); [intros H; inversion H; eauto|].
      destruct (Str.index "Fmp" _); [destruct (Str.index "Fp" _)|];
        intros H; inversion H; eauto.
    + rewrite (efficiency_unknown astype_float ps_da mask o Hd Hl). discriminate.
Qed.

(** X: a call that raises, whatever the exception, leaves the observations
    and the images as they were: nothing is recorded before every check and
    the whole efficiency computation have gone through. *)
Theorem failure_records_nothing (pixel : Type) (astype_float : pixel -> float)
    (ps_da : DataArray pixel) (mask : ndarray)
    (labels : option (list string)) (label : string) (o o' : Outputs) (e : exn) :
  analyze_yii astype_float ps_da mask labels label o = (Raise e, o') ->
  o' = o.
Proof.
  rewrite analyze_yii_eq, validate_eq.
  destruct (shape_matches ps_da mask); cbn [negb]; [|congruence].
  destruct (mask_accepted mask); cbn [negb]; [|congruence].
  destruct (labels_match ps_da labels); cbn [negb]; [|congruence].
  pose proof (efficiency_state astype_float ps_da mask o) as Hst.
  destruct (efficiency astype_float ps_da mask o) as [[[yii|]|e'] o2];
    cbn [snd] in Hst; subst o2; [|congruence|congruence].
  unfold groupby_measurement.
  destruct (measurement ps_da) as [|m0 ms] eqn:Em; cbn [length Nat.eqb];
    [unfold raise; congruence|].
  unfold ret.
  rewrite (last_figure_eq ps_da labels yii) by (rewrite Em; discriminate).
  discriminate.
Qed.

(** A mask of the wrong shape met with observations already recorded. *)
Lemma failure_records_nothing_witness :
  snd (analyze_yii F64.of_Z (uniform_stack "darkadapted" 1 2) mask_1x2 None
         "default"
         (snd (analyze_yii F64.of_Z (uniform_stack "darkadapted" 1 2)
                 (uniform_mask 255) None "first" empty_outputs)))
  = snd (analyze_yii F64.of_Z (uniform_stack "darkadapted" 1 2)
           (uniform_mask 255) None "first" empty_outputs).
Proof.
  apply (@failure_records_nothing Z F64.of_Z (uniform_stack "darkadapted" 1 2)
           mask_1x2 None "default"%string _ _
           (FatalError "Mask needs to have shape (2, 2)")).
  reflexivity.
Defined.

(** X: the label-count error is raised exactly when the mask has passed the
    shape and binarity checks and labels are given whose number differs from
    the number of measurements; the stack's content and variant play no
    part. *)
Theorem label_count_error_iff (pixel : Type) (astype_float : pixel -> float)
    (ps_da : DataArray pixel) (mask : ndarray)
    (labels : option (list string)) (label : string) (o : Outputs) :
  fst (analyze_yii astype_float ps_da mask labels label o)
  = Raise (FatalError
      "measurement_labels must be the same length as the number of measurements in the DataArray")
  <-> (shape_matches ps_da mask = true
       /\ mask_accepted mask = true
       /\ exists ls, labels = Some ls
                     /\ length ls <> length (measurement ps_da)).
Proof.
  rewrite analyze_yii_eq, validate_eq.
  destruct (shape_matches ps_da mask); cbn [negb fst].
  2:{ split; [intros H; inversion H|intros (H & _); discriminate]. }
  destruct (mask_accepted mask); cbn [negb fst].
  2:{ split; [intros H; inversion H|intros (_ & H & _); discriminate]. }
  destruct (labels_match ps_da labels) eqn:Hl; cbn [negb fst].
  - split.
    + destruct (efficiency astype_float ps_da mask o) as [[[yii|]|e'] o2] eqn:He.
      * destruct (groupby_measurement _ o2) as [[u|e] o3] eqn:Hg.
        -- destruct (last_figure ps_da labels yii); cbn [fst]; discriminate.
        -- unfold groupby_measurement in Hg.
           destruct (Nat.eqb _ 0); inversion Hg. cbn [fst]. discriminate.
      * cbn [fst]. discriminate.
      * cbn [fst]. destruct (efficiency_raises _ _ _ _ He) as [[k ->]|[m ->]];
          discriminate.
    + intros (_ & _ & ls & -> & Hne). unfold labels_match in Hl.
      apply Nat.eqb_eq in Hl. contradiction.
  - split; [intros _|reflexivity].
    repeat split. unfold labels_match in Hl.
    destruct labels as [ls|]; [|discriminate].
    exists ls. split; [reflexivity|]. now apply Nat.eqb_neq.
Qed.

(** *** The light-adapted efficiency map *)

Lemma get2_map2 (A B C : Type) (f : A -> B -> C)
    (a : list (list A)) (b : list (list B)) (x y : nat) :
  get2 (map2 (map2 f) a b) x y =
  match get2 a x y, get2 b x y with
  | Some u, Some v => Some (f u v)
  | _, _ => None
  end.
Proof.
  unfold get2. rewrite nth_error_map2.
  destruct (nth_error a x) as [ra|], (nth_error b x) as [rb|]; try reflexivity.
  - apply nth_error_map2.
  - destruct (nth_error ra y); reflexivity.
Qed.

Lemma get2_map_map (A B : Type) (f : A -> B) (a : list (list A)) (x y : nat) :
  get2 (map (map f) a) x y = option_map f (get2 a x y).
Proof.
  unfold get2. rewrite nth_error_map.
  destruct (nth_error a x) as [row|]; [|reflexivity].
  cbn [option_map]. apply nth_error_map.
Qed.

Lemma get2_where_mask (pixel : Type) (astype_float : pixel -> float)
    (ps : list (list (list (list pixel)))) (mask : list (list Z)) (x y : nat) :
  get2 (where_mask astype_float ps mask) x y =
  match get2 ps x y, get2 mask x y with
  | Some px, Some mv => Some (map (map (masked astype_float mv)) px)
  | _, _ => None
  end.
Proof. unfold where_mask. apply get2_map2. Qed.

Lemma get2_concat_measurement (F : nat -> list (list (list float)))
    (f : nat -> list float) (x y : nat) (idx : list nat) :
  idx <> [] ->
  (forall i, In i idx -> get2 (F i) x y = Some (f i)) ->
  get2 (concat_measurement (map F idx)) x y = Some (concat (map f idx)).
Proof.
  destruct idx as [|i0 idx]; [congruence|]. intros _ H.
  cbn [map concat_measurement concat].
  assert (H0 : get2 (F i0) x y = Some (f i0)) by (apply H; now left).
  assert (Hrest : forall i, In i idx -> get2 (F i) x y = Some (f i))
    by (intros i Hi; apply H; now right).
  clear H. revert H0. generalize (F i0) as p. generalize (f i0) as l0.
  induction idx as [|i idx IH]; intros l0 p H0.
  - simpl. now rewrite app_nil_r.
  - cbn [map fold_left concat].
    rewrite app_assoc. apply IH.
    + intros j Hj. apply Hrest. now right.
    + rewrite get2_map2, H0, (Hrest i (or_introl eq_refl)). reflexivity.
Qed.

Lemma firstn_skipn_map (A B : Type) (c : A -> B) (ms : list A) : forall i v,
  nth_error ms i = Some v -> firstn 1 (skipn i (map c ms)) = [c v].
Proof.
  induction ms as [|a ms IH]; intros [|i] v H; simpl in *; try discriminate.
  - injection H as <-. reflexivity.
  - now apply IH.
Qed.

Lemma nth_sliced (A : Type) (c : A -> float) (i : nat) (px : list (list A)) :
  forall j,
  nth j (map (fun ms : list float => firstn 1 (skipn i ms)) (map (map c) px)) []
  = firstn 1 (skipn i (map c (nth j px []))).
Proof.
  induction px as [|ms px IH]; intros [|j]; simpl;
    try (destruct i; reflexivity); try reflexivity.
  apply IH.
Qed.

Lemma get4_frames (A : Type) (a : list (list (list (list A)))) (x y j m : nat)
    (px : list (list A)) :
  get2 a x y = Some px ->
  get4 a x y j m = nth_error (nth j px []) m.
Proof.
  intros H. unfold get4, get3. rewrite H. symmetry. apply nth_error_nth_nil.
Qed.

(** X: on a light-adapted stack the map a call returns is
    [(Fmp - Fp) / Fmp] on the masked float-cast values of the frames
    labelled "Fmp" and "Fp", measurement by measurement: grouping by
    measurement pairs the two frames of the same measurement. *)
Theorem light_adapted_formula (pixel : Type) (astype_float : pixel -> float)
    (ps_da : DataArray pixel) (mask : ndarray)
    (labels : option (list string)) (label : string) (o o' : Outputs)
    (y : YiiArray) (fig : ggplot) (jm jp x yy m : nat) (mv : Z) :
  is_dark ps_da = false -> is_light ps_da = true ->
  analyze_yii astype_float ps_da mask labels label o = (Ok (y, fig), o') ->
  Str.index "Fmp" (frame_label ps_da) = Some jm ->
  Str.index "Fp" (frame_label ps_da) = Some jp ->
  get2 (nd_values mask) x yy = Some mv ->
  (forall i, i < length (measurement ps_da) ->
             get4 (da_values ps_da) x yy jm i <> None
             /\ get4 (da_values ps_da) x yy jp i <> None) ->
  m < length (measurement ps_da) ->
  exists vm vp,
    get4 (da_values ps_da) x yy jm m = Some vm
    /\ get4 (da_values ps_da) x yy jp m = Some vp
    /\ get3 (yii_values y) x yy m
       = Some (PrimFloat.div
                 (PrimFloat.sub (masked astype_float mv vm)
                                (masked astype_float mv vp))
                 (masked astype_float mv vm)).
Proof.
  intros Hd Hl Hrun Hjm Hjp Hmask Hall Hm.
  destruct (@analyze_yii_ok _ _ _ _ _ _ _ _ _ _ Hrun)
    as (yii & He & -> & _ & _ & _ & Hne & _).
  rewrite (efficiency_light astype_float ps_da mask o Hd Hl), Hjm, Hjp in He.
  destruct (Nat.eqb (length (measurement ps_da)) 0); [discriminate|].
  injection He as <-.
  set (N := length (measurement ps_da)) in *.
  destruct (get2 (da_values ps_da) x yy) as [px|] eqn:Epx.
  2:{ exfalso. destruct (Hall m Hm) as [H _]. apply H.
      unfold get4, get3. now rewrite Epx. }
  assert (G : forall j k, get4 (da_values ps_da) x yy j k
                          = nth_error (nth j px []) k)
    by (intros j k; now apply get4_frames).
  set (c := masked astype_float mv).
  set (r := fun i =>
              match nth_error (nth jm px []) i, nth_error (nth jp px []) i with
              | Some vm, Some vp =>
                  [PrimFloat.div (PrimFloat.sub (c vm) (c vp)) (c vm)]
              | _, _ => []
              end).
  assert (Hpart : forall i, In i (seq 0 N) ->
            get2 (yii_formula jm jp
                    (group i (where_mask astype_float (da_values ps_da)
                                         (nd_values mask)))) x yy
            = Some (r i)).
  { intros i Hi. apply in_seq in Hi.
    destruct (Hall i ltac:(lia)) as [H1 H2].
    rewrite !G in H1, H2.
    unfold yii_formula, elementwise. rewrite !get2_map2.
    unfold frame_at, group. rewrite !get2_map_map, get2_where_mask, Epx, Hmask.
    cbn [option_map].
    fold c. rewrite !nth_sliced. unfold r.
    destruct (nth_error (nth jm px []) i) as [vm|] eqn:Evm; [|congruence].
    destruct (nth_error (nth jp px []) i) as [vp|] eqn:Evp; [|congruence].
    rewrite (firstn_skipn_map c _ _ Evm), (firstn_skipn_map c _ _ Evp).
    reflexivity. }
  unfold result_array; cbn [yii_values]. unfold get3.
  rewrite (get2_concat_measurement _ r x yy (idx := seq 0 N)); [|
    destruct N; [lia|discriminate] | exact Hpart].
  destruct (Hall m Hm) as [H1 H2].
  rewrite !G in H1, H2.
  destruct (nth_error (nth jm px []) m) as [vm|] eqn:Evm; [|congruence].
  destruct (nth_error (nth jp px []) m) as [vp|] eqn:Evp; [|congruence].
  exists vm, vp. rewrite !G. split; [exact Evm|].
  split; [exact Evp|].
  assert (Hsingle : forall k, k <= N ->
            forall j, j < k ->
            nth_error (concat (map r (seq 0 k))) j = nth_error (r j) 0).
  { induction k as [|k IH]; intros Hk j Hj; [lia|].
    rewrite seq_S, map_app, concat_app. cbn [map concat Nat.add].
    rewrite app_nil_r.
    assert (Hlen : length (concat (map r (seq 0 k))) = k).
    { clear - Hk Hall G. induction k as [|k IHk]; [reflexivity|].
      rewrite seq_S, map_app, concat_app, length_app, IHk by lia.
      cbn [map concat Nat.add]. rewrite app_nil_r. unfold r.
      destruct (Hall k ltac:(lia)) as [H1 H2].
      rewrite !G in H1, H2.
      destruct (nth_error (nth jm px []) k); [|congruence].
      destruct (nth_error (nth jp px []) k); [|congruence].
      simpl. lia. }
    destruct (Nat.eq_dec j k) as [->|Hjk].
    - rewrite nth_error_app2, Hlen, Nat.sub_diag by lia. reflexivity.
    - rewrite nth_error_app1 by lia. apply IH; lia. }
  rewrite (Hsingle N (le_n N) m Hm). unfold r. rewrite Evm, Evp. reflexivity.
Qed.

(** The second measurement of a one-pixel stack with Fp = 2 and Fmp = 8
    there. *)
Lemma light_adapted_formula_witness :
  exists y, get3 (yii_values y) 0 0 1 = Some 0.75%float.
Proof.
  pose (y := result_array light_stack [ [[0.5; 0.75]] ]%float).
  pose (fig := figure_of (yii_values y) None (1, "t1"%string)).
  destruct (@light_adapted_formula Z F64.of_Z light_stack mask_1x1 None
              "default"%string empty_outputs
              (snd (analyze_yii F64.of_Z light_stack mask_1x1 None
                      "default"%string empty_outputs))
              y fig 1 0 0 0 1 255%Z
              eq_refl eq_refl ltac:(vm_compute; reflexivity) eq_refl eq_refl eq_refl)
    as (vm & vp & Hvm & Hvp & Hy).
  - intros [|[|i]] Hi; [split; discriminate|split; discriminate|].
    simpl in Hi. lia.
  - simpl. lia.
  - exists y. rewrite Hy.
    injection Hvm as <-. injection Hvp as <-. vm_compute. reflexivity.
Defined.
